(** * harvest_template: template harvesting bot

    A shallow embedding of [scripts/harvest_template.py] (the signal
    handler, [HarvestRobot] and [main]) together with the properties of
    its decision procedure.

    Conventions.
    - Python strings are Rocq strings; a character stands for the code
      point of the same number (0..255).
    - Objects of the pywikibot library (pages, items, sites, compiled
      regular expressions) are not defined in the script.  Their
      observations are gathered in the record [World]; the script is
      modelled against an arbitrary world.  A library call is taken to
      return; the exceptions the script catches ([NoPage], [InvalidTitle])
      are results of the observation concerned.
    - The Claim Writer ([user_add_claim]) is a method of the bot base class.
      [treat] is modelled against an arbitrary one; the base class, as far
      as it is needed, is modelled separately.
    - [treat] mutates the item it is given and talks to the operator and
      to the repository.  It is modelled in a state-and-log monad: the
      state is the item object, the log is the list of visible effects
      (messages, calls of the Claim Writer), in program order. *)

From Stdlib Require Import String Ascii List ZArith Bool Lia.
From stdpp Require Import base gmap sets list strings.
Import ListNotations.

(** ** Python string helpers *)

Module Py.

(** [str.isspace] on the code points below 256. *)
Definition isspace (c : ascii) : bool :=
  let n := nat_of_ascii c in
  (((9 <=? n) && (n <=? 13)) || ((28 <=? n) && (n <=? 32))
   || (n =? 133) || (n =? 160))%nat.

Fixpoint lstrip (s : string) : string :=
  match s with
  | String c r => if isspace c then lstrip r else s
  | EmptyString => EmptyString
  end.

Definition rstrip (s : string) : string := String.rev (lstrip (String.rev s)).

(** [s.strip()] *)
Definition strip (s : string) : string := rstrip (lstrip s).

(** Truth value of a string: [not s] holds of the empty string only. *)
Definition truthy (s : string) : bool :=
  match s with EmptyString => false | String _ _ => true end.

(** [s.startswith(p)] *)
Definition startswith (s p : string) : bool := String.prefix p s.

(** [s[n:]] *)
Fixpoint slice_from (n : nat) (s : string) : string :=
  match n, s with
  | O, _ => s
  | S n', String _ r => slice_from n' r
  | S _, EmptyString => EmptyString
  end.

(** [s.replace(a, b)] for one-character [a] and [b]. *)
Fixpoint replace_char (a b : ascii) (s : string) : string :=
  match s with
  | EmptyString => EmptyString
  | String c r =>
      String (if Ascii.eqb c a then b else c) (replace_char a b r)
  end.

(** [range(0, n, 2)] *)
Fixpoint range2_from (start count : nat) : list nat :=
  match count with
  | O => []
  | S k => start :: range2_from (2 + start) k
  end.

Definition range2 (n : nat) : list nat := range2_from 0 (Nat.div2 (S n)).

End Py.

(** ** Data of the pywikibot library, as the script sees it *)

(** [pywikibot.Site(code, fam)] *)
Record Site := mkSite { site_code : string; site_family : string }.

(** The arguments of a [pywikibot.Link(text, source=..., defaultNamespace=...)]
    call; an argument that is not passed is [None]. *)
Record Link := mkLink {
  link_text : string;
  link_source : option Site;
  link_defaultNamespace : option Z
}.

(** Exceptions the script raises or lets through. *)
Inductive exn := KeyboardInterrupt | ValueError | SystemExit.

Inductive outcome (A : Type) :=
| Returned (a : A)
| Raised (e : exn).
Arguments Returned {A} a.
Arguments Raised {A} e.

Section Harvest.

(** Page objects ([pywikibot.Page], [pywikibot.FilePage]) and item objects
    ([pywikibot.ItemPage]). *)
Context {Page ItemPage : Type}.

(** The value given to [claim.setTarget]. *)
Inductive target :=
| TItem (i : ItemPage)     (* an item: [claim.setTarget(linked_item)] *)
| TString (s : string)     (* a string: the value itself or a URL *)
| TFile (p : Page).        (* a file page: [claim.setTarget(image)] *)

(** [pywikibot.Claim(self.repo, prop)], with its target once set. *)
Record Claim := mkClaim {
  claim_prop : string;
  claim_target : option target
}.

Definition setTarget (c : Claim) (t : target) : Claim :=
  {| claim_prop := claim_prop c; claim_target := Some t |}.

(** Texts written by [pywikibot.output], [pywikibot.error] and [print],
    one constructor per format string of the script. *)
Inductive message :=
| MsgCtrlC                                   (* 'Received ctrl-c. Finishing current item; ...' *)
| MsgTemplateMissing (p : Page)              (* 'Template %s does not exist.' *)
| MsgFindingRedirects                        (* 'Finding redirects...' *)
| MsgNotExist (p : Page)                     (* '%s does not exist so it cannot be linked. Skipping.' *)
| MsgNoItem (p : Page)                       (* '%s does not have a wikidata item to link with. Skipping.' *)
| MsgSelfLink (p : Page)                     (* '%s links to itself. Skipping.' *)
| MsgAllClaims (p : Page) (t : string)       (* '%s item %s has claims for all properties. Skipping.' *)
| MsgTemplateFail (t : string)               (* 'Failed parsing template; ...' *)
| MsgAlreadyExists (pid : string)            (* 'A claim for %s already exists. Skipping.' *)
| MsgFileMissing (p : Page)                  (* '{0} doesn't exist. I can't link to it' *)
| MsgUnsupported (ty : string)               (* '%s is not a supported datatype.' *)
| MsgNoTemplateArg.                          (* 'Please specify either -template or -transcludes argument' *)

(** Visible effects, in program order. *)
Inductive event :=
| EvCurrentPage (p : Page)                   (* [self.current_page = page] *)
| EvOutput (m : message)                     (* [pywikibot.output], [print] *)
| EvError (m : message)                      (* [pywikibot.error] *)
| EvUserAddClaim (i : ItemPage) (c : Claim) (s : Site)
                                             (* [self.user_add_claim(item, claim, page.site)] is entered *)
| EvPrompt (c : Claim)                       (* the operator is asked to confirm the edit *)
| EvCommit (c : Claim)                       (* the claim is saved *)
| EvHandleArg (a : string)                   (* [gen.handleArg(a)] *)
| EvInput                                    (* [pywikibot.input('Please enter the template to work on:')] *)
| EvGetCombinedGenerator                     (* [gen.getCombinedGenerator(preload=True)] *)
| EvRun.                                     (* [bot.run()] *)

(** What the script observes of the library and of the wikis. *)
Record World := {
  (* the item object and the repository *)
  item_get : ItemPage -> ItemPage;           (* the item object after [item.get()] *)
  item_claims : ItemPage -> gset string;     (* keys of [item.claims], of [item.get().get('claims')] *)
  item_title : ItemPage -> string;           (* [item.title()] *)
  item_exists : ItemPage -> bool;            (* [item.exists()] *)
  ItemPage_fromPage : Page -> option ItemPage;
                                             (* [ItemPage.fromPage(page)]; [None]: it raises [NoPage] *)
  Claim_getID : string -> string;            (* [Claim(repo, prop).getID()] *)
  Claim_type : string -> string;             (* [Claim(repo, prop).type] *)
  save_claim : ItemPage -> Claim -> Site -> ItemPage;
                                             (* the item object after the claim is saved *)
  user_confirm : Claim -> bool;              (* the operator's answer when asked *)
  (* pages *)
  page_site : Page -> Site;                  (* [page.site] *)
  raw_extracted_templates : Page -> list (string * list (string * string));
  template_page_title : Site -> string -> option string;
                                             (* [Page(site, t, ns=10).title(withNamespace=False)];
                                                [None]: it raises [InvalidTitle] *)
  Page_of_link : Link -> Page;               (* [pywikibot.Page(link)] *)
  Page_of_title : string -> Z -> Page;       (* [pywikibot.Page(pywikibot.Site(), title, ns=n)] *)
  FilePage_of_link : Link -> Page;           (* [pywikibot.FilePage(link)] *)
  FilePage_of_page : Page -> Page;           (* [pywikibot.FilePage(page)] *)
  page_exists : Page -> bool;                (* [page.exists()] *)
  isRedirectPage : Page -> bool;
  getRedirectTarget : Page -> Page;
  page_title_no_ns : Page -> string;         (* [page.title(withNamespace=False)] *)
  getReferences_redirects : Page -> list Page;
                                             (* [page.getReferences(redirectsOnly=True, namespaces=[10],
                                                 follow_redirects=False)] *)
  (* compiled regular expressions; the result is the group the script reads *)
  link_regex_search : string -> option string;
                                             (* [m = pywikibot.link_regex.search(v)]: [m.group(1)] *)
  linkR_search : string -> option string     (* [m = self.linkR.search(v)]: [m.group('url')] *)
}.

End Harvest.

Arguments target : clear implicits.
Arguments Claim : clear implicits.
Arguments message : clear implicits.
Arguments event : clear implicits.
Arguments World : clear implicits.

(** ** The state-and-log monad of [treat] *)

Section Monad.

Context {Page ItemPage : Type}.

(** A computation reads and updates the item object and appends to the
    log of visible effects. *)
Definition M (A : Type) : Type :=
  ItemPage -> A * ItemPage * list (event Page ItemPage).

Definition ret {A} (a : A) : M A := fun it => (a, it, []).

Definition bind {A B} (m : M A) (k : A -> M B) : M B :=
  fun it =>
    let '(a, it1, l1) := m it in
    let '(b, it2, l2) := k a it1 in
    (b, it2, l1 ++ l2).

(** The item object in its present state. *)
Definition the_item : M ItemPage := fun it => (it, it, []).

Definition update_item (f : ItemPage -> ItemPage) : M unit :=
  fun it => (tt, f it, []).

Definition emit (e : event Page ItemPage) : M unit := fun it => (tt, it, [e]).

(** A computation that only writes to the log. *)
Definition logged {A} (r : list (event Page ItemPage) * A) : M A :=
  fun it => (r.2, it, r.1).

(** [for x in l: body(x)] *)
Fixpoint for_each {A} (l : list A) (body : A -> M unit) : M unit :=
  match l with
  | [] => ret tt
  | x :: r => bind (body x) (fun _ => for_each r body)
  end.

Definition log_of {A} (r : A * ItemPage * list (event Page ItemPage)) :
  list (event Page ItemPage) := r.2.

Definition item_of {A} (r : A * ItemPage * list (event Page ItemPage)) :
  ItemPage := r.1.2.

End Monad.

Declare Scope harvest_scope.
Delimit Scope harvest_scope with harvest.
Notation "x <- m ;; k" := (bind m (fun x => k))
  (at level 20, m at level 99, k at level 200, only parsing) : harvest_scope.
Notation "m ;; k" := (bind m (fun _ => k))
  (at level 100, k at level 200, only parsing, right associativity) : harvest_scope.
Open Scope harvest_scope.

(** ** The signal handler *)

(** [_signal_handler]: the global [willstop] is the state; the result is the
    new flag, what is printed, and whether [KeyboardInterrupt] is raised. *)
Definition _signal_handler {Page ItemPage : Type} (willstop : bool) :
  bool * list (event Page ItemPage) * outcome unit :=
  if negb willstop then (true, [EvOutput MsgCtrlC], Returned tt)
  else (willstop, [], Raised KeyboardInterrupt).

(** ** HarvestRobot *)

Section Robot.

Context {Page ItemPage : Type}.
Variable W : World Page ItemPage.

#[local] Abbreviation event := (event Page ItemPage).
#[local] Abbreviation Claim := (Claim Page ItemPage).

(** The attributes of a [HarvestRobot].  [availableOptions] is the table of
    option defaults of the bot classes; [options] holds the keyword options
    the base constructor was given.  [generator] lists the pages it yields,
    each with the item the page loop hands to [treat] with it; it is [None]
    when no generator could be built. *)
Record HarvestRobot := mkRobot {
  availableOptions : gmap string bool;
  options : gmap string bool;
  generator : option (list (Page * ItemPage));
  templateTitle : string;
  fields : gmap string string;
  templateTitles : list string
}.

(** [getTemplateSynonyms]; [exit()] raises [SystemExit]. *)
Definition getTemplateSynonyms (title : string) :
  list event * outcome (list string) :=
  let temp := Page_of_title W title 10 in
  if negb (page_exists W temp) then
    ([EvError (MsgTemplateMissing temp)], Raised SystemExit)
  else
    let temp := if isRedirectPage W temp then getRedirectTarget W temp else temp in
    let titles := map (page_title_no_ns W) (getReferences_redirects W temp) in
    ([EvOutput MsgFindingRedirects],
     Returned (titles ++ [page_title_no_ns W temp])).

(** [HarvestRobot.__init__].  [defaults] is the option table as the
    constructor finds it.  The base constructor is called without keyword
    options, so the instance has none of its own.  [self.linkR] is the
    world's [linkR_search]; [cacheSources()] prepares the Claim Writer and
    leaves no attribute that [treat] reads. *)
Definition HarvestRobot_init (defaults : gmap string bool)
    (generator : option (list (Page * ItemPage))) (templateTitle : string)
    (fields : gmap string string) : list event * outcome HarvestRobot :=
  let availableOptions := <["always" := true]> defaults in
  let options : gmap string bool := ∅ in
  let templateTitle := Py.replace_char "_"%char " "%char templateTitle in
  let '(log, syn) := getTemplateSynonyms templateTitle in
  match syn with
  | Raised e => (log, Raised e)
  | Returned titles =>
      (log, Returned {| availableOptions := availableOptions;
                        options := options;
                        generator := generator;
                        templateTitle := templateTitle;
                        fields := fields;
                        templateTitles := titles |})
  end.

(** [_template_link_target(item, link_text)]; the result [None] is the
    bare [return]. *)
Definition _template_link_target (item : ItemPage) (link_text : string) :
  list event * option ItemPage :=
  let link := mkLink link_text None None in
  let linked_page := Page_of_link W link in
  if negb (page_exists W linked_page) then
    ([EvOutput (MsgNotExist linked_page)], None)
  else
    let linked_page :=
      if isRedirectPage W linked_page then getRedirectTarget W linked_page
      else linked_page in
    let linked_item := ItemPage_fromPage W linked_page in
    match linked_item with
    | None => ([EvOutput (MsgNoItem linked_page)], None)
    | Some li =>
        if negb (item_exists W li) then
          ([EvOutput (MsgNoItem linked_page)], None)
        else if String.eqb (item_title W li) (item_title W item) then
          ([EvOutput (MsgSelfLink linked_page)], None)
        else ([], Some li)
    end.

(** The shared media repository: [pywikibot.Site('commons', 'commons')]. *)
Definition commonssite : Site := mkSite "commons" "commons".

(** The dispatch on [claim.type] in [treat]: the target given to
    [claim.setTarget], or [None] where the branch ends in [continue]. *)
Definition claim_target_of (claim : Claim) (value : string) :
  M (option (target Page ItemPage)) :=
  let type := Claim_type W (claim_prop claim) in
  if String.eqb type "wikibase-item" then
    let link_text :=
      match link_regex_search W value with
      | Some group1 => group1
      | None => value
      end in
    item <- the_item ;;
    linked_item <- logged (_template_link_target item link_text) ;;
    match linked_item with
    | None => ret None
    | Some li => ret (Some (TItem li))
    end
  else if String.eqb type "string" || String.eqb type "external-id" then
    ret (Some (TString (Py.strip value)))
  else if String.eqb type "url" then
    match linkR_search W value with
    | None => ret None
    | Some url => ret (Some (TString url))
    end
  else if String.eqb type "commonsMedia" then
    let imagelink := mkLink value (Some commonssite) (Some 6%Z) in
    let image := FilePage_of_link W imagelink in
    let image :=
      if isRedirectPage W image
      then FilePage_of_page W (getRedirectTarget W image)
      else image in
    if negb (page_exists W image) then
      (emit (EvOutput (MsgFileMissing image)) ;; ret None)
    else ret (Some (TFile image))
  else
    (emit (EvOutput (MsgUnsupported type)) ;; ret None).

(** [self.user_add_claim]: the Claim Writer, a method of the bot base class
    that the script calls and does not define. *)
Variable user_add_claim :
  HarvestRobot -> Claim -> Site -> @M Page ItemPage unit.

(** [self.user_add_claim(item, claim, source)]: the call is logged with the
    item as it is, then the method runs. *)
Definition call_user_add_claim (self : HarvestRobot) (claim : Claim)
    (source : Site) : M unit :=
  item <- the_item ;;
  emit (EvUserAddClaim item claim source) ;;
  user_add_claim self claim source.

(** The body of [for field, value in fielddict.items()]. *)
Definition treat_field (self : HarvestRobot) (page : Page)
    (fv : string * string) : M unit :=
  let field := Py.strip fv.1 in
  let value := Py.strip fv.2 in
  if negb (Py.truthy field) || negb (Py.truthy value) then ret tt
  else
    match fields self !! field with
    | None => ret tt
    | Some prop =>
        let claim : Claim := mkClaim prop None in
        update_item (item_get W) ;;
        item <- the_item ;;
        if bool_decide (Claim_getID W (claim_prop claim) ∈ item_claims W item) then
          emit (EvOutput (MsgAlreadyExists (Claim_getID W (claim_prop claim))))
        else
          tgt <- claim_target_of claim value ;;
          match tgt with
          | None => ret tt
          | Some t =>
              call_user_add_claim self (setTarget claim t) (page_site W page)
          end
    end.

(** The body of [for (template, fielddict) in templates]. *)
Definition treat_template (self : HarvestRobot) (page : Page)
    (tf : string * list (string * string)) : M unit :=
  match template_page_title W (page_site W page) tf.1 with
  | None => emit (EvError (MsgTemplateFail tf.1))
  | Some template =>
      if bool_decide (template ∈ templateTitles self) then
        for_each tf.2 (treat_field self page)
      else ret tt
  end.

(** [treat] after the test of [willstop]. *)
Definition treat_page (self : HarvestRobot) (page : Page) : M unit :=
  emit (EvCurrentPage page) ;;
  update_item (item_get W) ;;
  item <- the_item ;;
  if bool_decide (map_img (SA := gset string) (fields self) ⊆ item_claims W item) then
    emit (EvOutput (MsgAllClaims page (item_title W item)))
  else
    for_each (raw_extracted_templates W page) (treat_template self page).

(** [HarvestRobot.treat(page, item)]; [willstop] is the value of the global
    flag when the method is entered. *)
Definition treat (self : HarvestRobot) (willstop : bool) (page : Page)
    (item : ItemPage) : outcome unit * ItemPage * list event :=
  if willstop then (Raised KeyboardInterrupt, item, [])
  else
    let '(_, item', log) := treat_page self page item in
    (Returned tt, item', log).

End Robot.

(** ** The bot base class *)

Section BaseClass.

Context {Page ItemPage : Type}.
Variable W : World Page ItemPage.

(** Modelled from the spec: option lookup of the bot base class, which is
    not part of the script and which the confirmation policy of the Claim
    Writer consults: a keyword option of the instance if there is one, the
    default of [availableOptions] otherwise. *)
Definition getOption (self : @HarvestRobot Page ItemPage) (name : string) :
  bool :=
  match options self !! name with
  | Some v => v
  | None => default false (availableOptions self !! name)
  end.

(** Modelled from the spec: the Claim Writer ([user_add_claim] of the bot
    base class, not part of the script), which takes the claim and the
    originating page's site and is responsible for the commit and for the
    user confirmation policy.  The policy is that of the option 'always':
    with it the claim is saved without asking; otherwise the operator is
    asked and the claim is saved on approval.  What saving does to the item
    is left to the world. *)
Definition WikidataBot_user_add_claim (self : HarvestRobot)
    (claim : Claim Page ItemPage) (source : Site) : M unit :=
  if getOption self "always" then
    (emit (EvCommit claim) ;;
     update_item (fun it => save_claim W it claim source))
  else
    (emit (EvPrompt claim) ;;
     if user_confirm W claim then
       (emit (EvCommit claim) ;;
        update_item (fun it => save_claim W it claim source))
     else ret tt).

End BaseClass.

(** ** The page loop and the interrupt signal *)

Section Run.

Context {Page ItemPage : Type}.
Variable W : World Page ItemPage.
(** The Claim Writer of the bot. *)
Variable writer :
  @HarvestRobot Page ItemPage -> Claim Page ItemPage -> Site -> @M Page ItemPage unit.
Variable self : @HarvestRobot Page ItemPage.

#[local] Abbreviation event := (event Page ItemPage).

(** Where the main thread is. *)
Inductive control :=
| AtPage (pages : list (Page * ItemPage))
    (* the page loop is about to call [treat] on the first of [pages] *)
| InTreat (pending : list event) (rest : list (Page * ItemPage))
    (* [treat] is past its test of [willstop]; [pending] are the effects
       it has still to perform on this page *)
| Finished                                  (* the generator is exhausted *)
| Aborted.                                  (* [KeyboardInterrupt] was raised *)

(** The global flag, the main thread, and what has been done so far. *)
Record config := mkConfig {
  willstop : bool;
  ctl : control;
  done_log : list event
}.

(** What happens next: the main thread goes on by one effect, or SIGINT
    arrives and Python runs [_signal_handler] in the main thread. *)
Inductive tick := Step | Sigint.

Definition running (c : control) : bool :=
  match c with
  | AtPage _ | InTreat _ _ => true
  | Finished | Aborted => false
  end.

(** Modelled from the spec: the page loop ([run] of the bot base class, not
    part of the script): pages are processed one at a time in generator
    order, each by one call of [treat]; an abort signal ends the run.  The
    entry test of [treat] and the handler are the script's. *)
Definition step (t : tick) (c : config) : config :=
  if negb (running (ctl c)) then c
  else
    match t with
    | Sigint =>
        let '(flag, printed, r) := _signal_handler (willstop c) in
        match r with
        | Returned _ => mkConfig flag (ctl c) (done_log c ++ printed)
        | Raised _ => mkConfig flag Aborted (done_log c ++ printed)
        end
    | Step =>
        match ctl c with
        | AtPage [] => mkConfig (willstop c) Finished (done_log c)
        | AtPage ((page, item) :: rest) =>
            match treat W writer self (willstop c) page item with
            | (Raised _, _, _) => mkConfig (willstop c) Aborted (done_log c)
            | (Returned _, _, log) =>
                mkConfig (willstop c) (InTreat log rest) (done_log c)
            end
        | InTreat [] rest => mkConfig (willstop c) (AtPage rest) (done_log c)
        | InTreat (e :: pending) rest =>
            mkConfig (willstop c) (InTreat pending rest) (done_log c ++ [e])
        | Finished | Aborted => c
        end
    end.

(** A schedule of ticks, first tick first. *)
Definition exec (ts : list tick) (c : config) : config :=
  fold_left (fun c t => step t c) ts c.

End Run.

(** ** main *)

Section Main.

Context {Page ItemPage Gen : Type}.
Variable W : World Page ItemPage.

#[local] Abbreviation event := (event Page ItemPage).

(** The command line helpers of the library; [Gen] is the state of the
    [GeneratorFactory] object. *)
Record CommandLine := {
  handle_args : list string -> list string;  (* [pywikibot.handle_args(args)] *)
  GeneratorFactory : Gen;                    (* [pg.GeneratorFactory()] *)
  handleArg : Gen -> string -> Gen * bool;   (* [gen.handleArg(arg)] *)
  input_template : string;                   (* the operator's answer to [pywikibot.input] *)
  getCombinedGenerator : Gen -> option (list (Page * ItemPage));
  option_defaults : gmap string bool         (* [availableOptions] of the bot classes *)
}.

Variable C : CommandLine.

(** The variables of the argument loop. *)
Record arg_state := mkArgs {
  a_gen : Gen;
  a_template_title : string;
  a_commandline_arguments : list string;
  a_log : list event
}.

(** The body of [for arg in local_args]. *)
Definition main_arg (st : arg_state) (arg : string) : arg_state :=
  if Py.startswith arg "-template" then
    if Nat.eqb (String.length arg) 9 then
      mkArgs (a_gen st) (input_template C) (a_commandline_arguments st)
             (a_log st ++ [EvInput])
    else
      mkArgs (a_gen st) (Py.slice_from 10 arg) (a_commandline_arguments st)
             (a_log st)
  else
    let '(gen, handled) := handleArg C (a_gen st) arg in
    if handled then
      mkArgs gen
             (if Py.startswith arg "-transcludes:" then Py.slice_from 13 arg
              else a_template_title st)
             (a_commandline_arguments st)
             (a_log st ++ [EvHandleArg arg])
    else
      mkArgs gen (a_template_title st) (a_commandline_arguments st ++ [arg])
             (a_log st ++ [EvHandleArg arg]).

(** The start of [main]: [handle_args], the factory, and the loop over
    [local_args]. *)
Definition parse_args (args : list string) : arg_state :=
  let local_args := handle_args C args in
  fold_left main_arg local_args (mkArgs (GeneratorFactory C) "" [] []).

(** The loop that fills [fields]:
    [for i in range(0, len(args), 2): fields[args[i]] = args[i + 1]].
    An index out of range does not occur when the length is even, which is
    the only case in which [main] gets here. *)
Definition fields_of_args (args : list string) : gmap string string :=
  fold_left
    (fun (fields : gmap string string) i =>
       match args !! i, args !! (S i) with
       | Some name, Some pid => <[name := pid]> fields
       | _, _ => fields
       end)
    (Py.range2 (length args)) ∅.

(** [main] up to and including the call of [bot.run()]; the result
    is the bot that was run, if one was. *)
Definition main (args : list string) :
  list event * outcome (option (@HarvestRobot Page ItemPage)) :=
  let st := parse_args args in
  let template_title := a_template_title st in
  let commandline_arguments := a_commandline_arguments st in
  if negb (Py.truthy template_title) then
    (a_log st ++ [EvError MsgNoTemplateArg], Returned None)
  else if negb (Nat.eqb (length commandline_arguments mod 2) 0) then
    (a_log st, Raised ValueError)
  else
    let fields := fields_of_args commandline_arguments in
    let '(gen, generator, log) :=
      match getCombinedGenerator C (a_gen st) with
      | Some g => (a_gen st, Some g, a_log st ++ [EvGetCombinedGenerator])
      | None =>
          let arg := String.append "-transcludes:" template_title in
          let gen := (handleArg C (a_gen st) arg).1 in
          (gen, getCombinedGenerator C gen,
           a_log st ++ [EvGetCombinedGenerator; EvHandleArg arg;
                        EvGetCombinedGenerator])
      end in
    let '(ilog, bot) :=
      HarvestRobot_init W (option_defaults C) generator template_title fields in
    match bot with
    | Raised e => (log ++ ilog, Raised e)
    | Returned bot => (log ++ ilog ++ [EvRun], Returned (Some bot))
    end.

End Main.

(** ** A small world to run the script in *)

Module Demo.

(** Modelled from the spec: [pywikibot.link_regex] is not part of the
    script; wiki link markup is [[[Target]]]: the text between the first
    "[[" that is closed and its "]]". *)
Fixpoint until_close (s : string) : option string :=
  match s with
  | EmptyString => None
  | String c r =>
      if String.prefix "]]" s then Some EmptyString
      else option_map (String c) (until_close r)
  end.

Fixpoint link_markup_target (s : string) : option string :=
  match s with
  | EmptyString => None
  | String _ r =>
      if String.prefix "[[" s then
        match until_close (Py.slice_from 2 s) with
        | Some t => Some t
        | None => link_markup_target r
        end
      else link_markup_target r
  end.

(** Modelled from the spec: the expression of [textlib.compileLinkR()] is
    not part of the script; external-link markup is [[URL label]]: the
    URL runs from "http://" or "https://" after the first such "[" to the
    next blank or "]". *)
Fixpoint url_chars (s : string) : string :=
  match s with
  | EmptyString => EmptyString
  | String c r =>
      if Py.isspace c || Ascii.eqb c "]"%char then EmptyString
      else String c (url_chars r)
  end.

Fixpoint external_link_url (s : string) : option string :=
  match s with
  | EmptyString => None
  | String c r =>
      if Ascii.eqb c "["%char
         && (String.prefix "http://" r || String.prefix "https://" r)
      then Some (url_chars r)
      else external_link_url r
  end.

Record page := mkPage { p_site : Site; p_ns : Z; p_title : string }.
Record item := mkItem { i_id : string; i_claims : list string }.

Definition nlwiki : Site := mkSite "nl" "wikipedia".

Definition one_of (l : list string) (s : string) : bool :=
  existsb (String.eqb s) l.

(** The template call of the article: one field per kind of property. *)
Definition taxobox : list (string * list (string * string)) :=
  [ ("Infobox", [("orde", "[[Nothing]]")]);
    ("taxobox straalvinnige",
     [ ("orde", " [[Actinopterygii]] ");
       ("familie", "xyz-not-a-page");
       ("geslacht", "see [[Sisoridae]] above");
       ("naam", "  Sisoridae ");
       ("website", "site: [http://example.org/x label]");
       ("bron", "example.org");
       ("afbeelding", "Fish.jpg");
       ("kaart", "Missing.png");
       ("positie", "52N 4E");
       ("leeg", "   ");
       ("onbekend", "text") ]) ].

Definition world : World page item := {|
  item_get := fun it => it;
  item_claims := fun it => list_to_set (i_claims it);
  item_title := i_id;
  item_exists := fun it => negb (String.eqb (i_id it) "Q0");
  ItemPage_fromPage := fun p =>
    if String.eqb (p_title p) "Sisoridae" then Some (mkItem "Q1" [])
    else if String.eqb (p_title p) "Actinopterygii" then Some (mkItem "Q2" [])
    else None;
  Claim_getID := fun prop => prop;
  Claim_type := fun prop =>
    if one_of ["P70"; "P71"; "P74"] prop then "wikibase-item"
    else if String.eqb prop "P225" then "string"
    else if String.eqb prop "P856" then "url"
    else if one_of ["P18"; "P242"] prop then "commonsMedia"
    else "globe-coordinate";
  save_claim := fun it c _ => mkItem (i_id it) (i_claims it ++ [claim_prop c]);
  user_confirm := fun _ => false;
  page_site := p_site;
  raw_extracted_templates := fun p =>
    if String.eqb (p_title p) "Sisoridae" then taxobox else [];
  template_page_title := fun _ t =>
    if String.eqb t "taxobox straalvinnige" then Some "Taxobox straalvinnige"
    else if String.eqb t "Infobox" then Some "Infobox" else None;
  Page_of_link := fun l =>
    mkPage (default nlwiki (link_source l)) (default 0%Z (link_defaultNamespace l))
           (Py.strip (link_text l));
  Page_of_title := fun t ns => mkPage nlwiki ns t;
  FilePage_of_link := fun l =>
    mkPage (default nlwiki (link_source l)) (default 0%Z (link_defaultNamespace l))
           (Py.strip (link_text l));
  FilePage_of_page := fun p => p;
  page_exists := fun p =>
    one_of ["Sisoridae"; "Actinopterygii"; "Straalvinnigen"; "Fish.jpg";
            "Taxobox straalvinnige"] (p_title p);
  isRedirectPage := fun p => String.eqb (p_title p) "Straalvinnigen";
  getRedirectTarget := fun p => mkPage (p_site p) (p_ns p) "Actinopterygii";
  page_title_no_ns := p_title;
  getReferences_redirects := fun _ => [];
  link_regex_search := link_markup_target;
  linkR_search := external_link_url
|}.

(** A world with the same items in which the pages have no templates, every
    property is a string, nothing is a link and no page exists. *)
Definition bare_world : World page item := {|
  item_get := item_get world;
  item_claims := item_claims world;
  item_title := item_title world;
  item_exists := item_exists world;
  ItemPage_fromPage := fun _ => None;
  Claim_getID := Claim_getID world;
  Claim_type := fun _ => "string";
  save_claim := save_claim world;
  user_confirm := user_confirm world;
  page_site := page_site world;
  raw_extracted_templates := fun _ => [];
  template_page_title := fun _ _ => None;
  Page_of_link := Page_of_link world;
  Page_of_title := Page_of_title world;
  FilePage_of_link := FilePage_of_link world;
  FilePage_of_page := FilePage_of_page world;
  page_exists := fun _ => false;
  isRedirectPage := fun _ => false;
  getRedirectTarget := getRedirectTarget world;
  page_title_no_ns := page_title_no_ns world;
  getReferences_redirects := getReferences_redirects world;
  link_regex_search := fun _ => None;
  linkR_search := fun _ => None
|}.

Definition article : page := mkPage nlwiki 0 "Sisoridae".

Definition harvest_fields : gmap string string :=
  list_to_map [ ("orde", "P70"); ("familie", "P71"); ("geslacht", "P74");
                ("naam", "P225"); ("website", "P856"); ("bron", "P856");
                ("afbeelding", "P18"); ("kaart", "P242");
                ("positie", "P625"); ("leeg", "P225") ].

(** The bots of the small world have the Claim Writer of the base class. *)
Definition writer := WikidataBot_user_add_claim world.

(** The item of the article, without claims, and with a claim for every
    property of [harvest_fields]. *)
Definition fresh : item := mkItem "Q1" [].

Definition complete : item :=
  mkItem "Q1" ["P70"; "P71"; "P74"; "P225"; "P856"; "P18"; "P242"; "P625"].

(** A bot as [HarvestRobot.__init__] leaves it. *)
Definition robot : @HarvestRobot page item :=
  {| availableOptions := {[ "always" := true ]};
     options := ∅;
     generator := Some [(article, mkItem "Q1" [])];
     templateTitle := "Taxobox straalvinnige";
     fields := harvest_fields;
     templateTitles := ["Taxobox straalvinnige"] |}.

(** The bot of the two-field scenario: 'orde' and 'familie' only. *)
Definition robot2 : @HarvestRobot page item :=
  {| availableOptions := {[ "always" := true ]};
     options := ∅;
     generator := Some [(article, fresh)];
     templateTitle := "Taxobox straalvinnige";
     fields := list_to_map [("orde", "P70"); ("familie", "P71")];
     templateTitles := ["Taxobox straalvinnige"] |}.

(** The command line helpers: nothing is a global or a generator option. *)
Definition cmdline : @CommandLine page item unit := {|
  handle_args := fun args => args;
  GeneratorFactory := tt;
  handleArg := fun g arg => (g, Py.startswith arg "-transcludes:");
  input_template := "Taxobox straalvinnige";
  getCombinedGenerator := fun _ => Some [(article, mkItem "Q1" [])];
  option_defaults := {[ "always" := false ]}
|}.

End Demo.

(** ** Observations of a log *)

Section Logs.

Context {Page ItemPage : Type}.

(** The events of the Claim Writer: the call, the question to the operator,
    the commit. *)
Definition touches_writer (e : event Page ItemPage) : bool :=
  match e with
  | EvUserAddClaim _ _ _ | EvPrompt _ | EvCommit _ => true
  | _ => false
  end.

Definition writer_activity (log : list (event Page ItemPage)) :
  list (event Page ItemPage) := List.filter touches_writer log.

Definition is_prompt (e : event Page ItemPage) : bool :=
  match e with EvPrompt _ => true | _ => false end.

(** Every call of the Claim Writer in the log is answered at once by the
    commit of the same claim, and nobody is asked anything. *)
Fixpoint committed_unasked (log : list (event Page ItemPage)) : Prop :=
  match log with
  | [] => True
  | EvUserAddClaim _ c _ :: rest =>
      match rest with
      | EvCommit c' :: rest' => c' = c ∧ committed_unasked rest'
      | _ => False
      end
  | EvPrompt _ :: _ => False
  | EvCommit _ :: _ => False
  | _ :: rest => committed_unasked rest
  end.

(** The generator and run events of [main]. *)
Definition past_configuration (e : event Page ItemPage) : bool :=
  match e with
  | EvGetCombinedGenerator | EvRun | EvCurrentPage _
  | EvUserAddClaim _ _ _ | EvPrompt _ | EvCommit _ => true
  | _ => false
  end.

End Logs.

(** ** Vocabulary of the properties *)

Section Vocabulary.

Context {Page ItemPage : Type}.
Variable W : World Page ItemPage.
Variable writer :
  @HarvestRobot Page ItemPage -> Claim Page ItemPage -> Site -> @M Page ItemPage unit.
Variable self : @HarvestRobot Page ItemPage.

(** The property a field is mapped to is not yet claimed on the item. *)
Definition unclaimed (prop : string) (item : ItemPage) : Prop :=
  Claim_getID W prop ∉ item_claims W (item_get W item).

(** What the entity-reference branch does with a link text: resolve it with
    [_template_link_target] against the item as it is now and hand the
    linked item, if there is one, to the Claim Writer. *)
Definition claim_entity_by_title (page : Page) (prop link_text : string) :
  M unit :=
  item <- the_item ;;
  linked <- logged (_template_link_target W item link_text) ;;
  match linked with
  | None => ret tt
  | Some li =>
      call_user_add_claim writer self (mkClaim prop (Some (TItem li)))
        (page_site W page)
  end.

(** The page an entity-reference value ends at: the page of the link text,
    or the target of that page when it is a redirect. *)
Definition final_page (link_text : string) : Page :=
  let linked_page := Page_of_link W (mkLink link_text None None) in
  if isRedirectPage W linked_page then getRedirectTarget W linked_page
  else linked_page.


(** The types of property the dispatch has a branch for. *)
Definition supported_types : list string :=
  ["wikibase-item"; "string"; "external-id"; "url"; "commonsMedia"].

(** [fields[name] = pid] *)
Definition put (fields : gmap string string) (p : string * string) :
  gmap string string := <[p.1 := p.2]> fields.

(** A computation all of whose logs are committed and unasked. *)
Definition quiet {A} (m : @M Page ItemPage A) : Prop :=
  ∀ it, committed_unasked (log_of (m it)).

(** The pairs [(args[0], args[1])], [(args[2], args[3])], ... *)
Fixpoint consecutive_pairs (args : list string) : list (string * string) :=
  match args with
  | name :: pid :: rest => (name, pid) :: consecutive_pairs rest
  | _ => []
  end.

End Vocabulary.

(** ** Vocabulary of the further properties *)

Section MoreVocabulary.

Context {Page ItemPage : Type}.
Variable W : World Page ItemPage.

(** The characters of a string. *)
Definition chars (s : string) : list ascii := list_ascii_of_string s.

(** A string of white space only; the empty string is one. *)
Definition blank (s : string) : bool := forallb Py.isspace (chars s).

(** [lstrip] on the characters. *)
Fixpoint skip_spaces (l : list ascii) : list ascii :=
  match l with
  | c :: r => if Py.isspace c then skip_spaces r else l
  | [] => []
  end.


(** The errors [treat] reports for the template names of a page that are
    not well-formed titles, in the order of the page. *)
Definition template_errors (site : Site)
    (templates : list (string * list (string * string))) :
  list (event Page ItemPage) :=
  flat_map
    (fun tf => match template_page_title W site tf.1 with
               | None => [EvError (MsgTemplateFail tf.1)]
               | Some _ => []
               end) templates.

(** A template call of the page is one of the template the bot works on. *)
Definition matches (self : @HarvestRobot Page ItemPage) (site : Site)
    (tf : string * list (string * string)) : Prop :=
  ∃ template, template_page_title W site tf.1 = Some template
              ∧ template ∈ templateTitles self.

(** The calls of the Claim Writer in a log: item, claim and source of each,
    in order. *)
Fixpoint writer_calls (log : list (event Page ItemPage)) :
  list (ItemPage * Claim Page ItemPage * Site) :=
  match log with
  | [] => []
  | EvUserAddClaim it c s :: rest => (it, c, s) :: writer_calls rest
  | _ :: rest => writer_calls rest
  end.

(** The identifiers of the properties the Claim Writer was called for. *)
Definition called_ids (log : list (event Page ItemPage)) : list string :=
  map (fun ics => Claim_getID W (claim_prop ics.1.2)) (writer_calls log).

(** A call of the Claim Writer as [treat] makes it for [page]: the property
    is not claimed on the item at the time of the call, the claim has its
    target, and the source is the site of the page. *)
Definition sound_call (page : Page)
    (ics : ItemPage * Claim Page ItemPage * Site) : Prop :=
  (Claim_getID W (claim_prop ics.1.2) ∉ item_claims W (ics.1.1))
  ∧ is_Some (claim_target ics.1.2)
  ∧ ics.2 = page_site W page.

(** A Claim Writer that makes no call of itself. *)
Definition calls_nothing
    (writer : @HarvestRobot Page ItemPage -> Claim Page ItemPage -> Site ->
              @M Page ItemPage unit) : Prop :=
  ∀ self claim source it, writer_calls (log_of (writer self claim source it)) = [].

(** A Claim Writer after which, for this bot, the property of the claim is
    claimed on the item, and nothing that was claimed is lost. *)
Definition leaves_claimed
    (writer : @HarvestRobot Page ItemPage -> Claim Page ItemPage -> Site ->
              @M Page ItemPage unit)
    (self : @HarvestRobot Page ItemPage) : Prop :=
  ∀ claim source it,
    item_claims W it ⊆ item_claims W (item_of (writer self claim source it))
    ∧ Claim_getID W (claim_prop claim)
        ∈ item_claims W (item_of (writer self claim source it)).

(** Loading the item loses no claim. *)
Definition get_keeps_claims : Prop :=
  ∀ it, item_claims W it ⊆ item_claims W (item_get W it).

(** The page of the template a bot is built for: the page of the title in
    the template namespace, or the page it redirects to. *)
Definition template_page (title : string) : Page :=
  let temp := Page_of_title W (Py.replace_char "_"%char " "%char title) 10 in
  if isRedirectPage W temp then getRedirectTarget W temp else temp.

(** The names under which the template is recognised: the titles of the
    redirects to its page, then the title of the page. *)
Definition template_names (title : string) : list string :=
  map (page_title_no_ns W) (getReferences_redirects W (template_page title))
  ++ [page_title_no_ns W (template_page title)].

(** An argument [main] takes for a template argument. *)
Definition is_template_arg (arg : string) : bool :=
  Py.startswith arg "-template".

(** The arguments offered to the generator factory, as they appear in a
    log. *)
Fixpoint handled_args (log : list (event Page ItemPage)) : list string :=
  match log with
  | [] => []
  | EvHandleArg a :: rest => a :: handled_args rest
  | _ :: rest => handled_args rest
  end.

End MoreVocabulary.

(** ** More of the small world *)

Module MoreDemo.

Import Demo.

(** A bot for another template: no template call of the article is a call
    of it. *)
Definition navbox_robot : @HarvestRobot page item :=
  {| availableOptions := {[ "always" := true ]};
     options := ∅;
     generator := Some [(article, fresh)];
     templateTitle := "Navbox";
     fields := harvest_fields;
     templateTitles := ["Navbox"] |}.


(** The small world, with a template call whose name is not a title in front
    of the template calls of the article. *)
Definition broken_world : World page item := {|
  item_get := item_get world;
  item_claims := item_claims world;
  item_title := item_title world;
  item_exists := item_exists world;
  ItemPage_fromPage := ItemPage_fromPage world;
  Claim_getID := Claim_getID world;
  Claim_type := Claim_type world;
  save_claim := save_claim world;
  user_confirm := user_confirm world;
  page_site := page_site world;
  raw_extracted_templates := fun p =>
    ("{bad}", [("orde", "[[Actinopterygii]]")]) :: raw_extracted_templates world p;
  template_page_title := template_page_title world;
  Page_of_link := Page_of_link world;
  Page_of_title := Page_of_title world;
  FilePage_of_link := FilePage_of_link world;
  FilePage_of_page := FilePage_of_page world;
  page_exists := page_exists world;
  isRedirectPage := isRedirectPage world;
  getRedirectTarget := getRedirectTarget world;
  page_title_no_ns := page_title_no_ns world;
  getReferences_redirects := getReferences_redirects world;
  link_regex_search := link_regex_search world;
  linkR_search := linkR_search world
|}.

End MoreDemo.

(** * Properties *)

Section TreatProperties.

Context {Page ItemPage : Type}.
Variable W : World Page ItemPage.
Variable writer :
  @HarvestRobot Page ItemPage -> Claim Page ItemPage -> Site -> @M Page ItemPage unit.
Variable self : @HarvestRobot Page ItemPage.

#[local] Abbreviation event := (event Page ItemPage).
#[local] Abbreviation Claim := (Claim Page ItemPage).

Lemma treat_field_mapped page field value item prop :
  Py.truthy (Py.strip field) = true ->
  Py.truthy (Py.strip value) = true ->
  fields self !! Py.strip field = Some prop ->
  unclaimed W prop item ->
  treat_field W writer self page (field, value) item =
    (tgt <- claim_target_of W (mkClaim prop None) (Py.strip value) ;;
     match tgt with
     | None => ret tt
     | Some t =>
         call_user_add_claim writer self (mkClaim prop (Some t)) (page_site W page)
     end) (item_get W item).
Proof.
  intros Hf Hv Hmap Hnew.
  unfold treat_field; cbn [fst snd].
  rewrite Hf, Hv, Hmap; cbn [negb orb].
  unfold bind, update_item, the_item, setTarget; cbn [claim_prop].
  rewrite bool_decide_eq_false_2 by exact Hnew.
  destruct (claim_target_of W _ _ _) as [[tgt it1] l1].
  destruct tgt as [t|]; [|reflexivity].
  destruct (call_user_add_claim writer self _ _ it1) as [[u it2] l2]; reflexivity.
Qed.

(** C1. Whole-entity short-circuit: when every configured property
    identifier (the values of the field mapping) is among the claim
    identifiers of the item, [treat] stops right after loading the item:
    it reports the page as complete and returns.  No template of the page
    is looked at, nothing is parsed, the Claim Writer is not called; the
    result is the same whatever the templates, property types, regular
    expressions and wiki lookups are. *)
Theorem whole_entity_short_circuit (stop : bool) (page : Page) (item : ItemPage) :
  map_img (SA := gset string) (fields self) ⊆ item_claims W (item_get W item) ->
  treat W writer self stop page item =
    (if stop then (Raised KeyboardInterrupt, item, [])
     else (Returned tt, item_get W item,
           [EvCurrentPage page;
            EvOutput (MsgAllClaims page (item_title W (item_get W item)))]))
  ∧ writer_activity (log_of (treat W writer self stop page item)) = []
  ∧ (∀ W' : World Page ItemPage,
       item_get W' = item_get W -> item_claims W' = item_claims W ->
       item_title W' = item_title W ->
       treat W' writer self stop page item = treat W writer self stop page item).
Proof.
  intros Hsub.
  assert (Hall : ∀ V : World Page ItemPage,
    item_get V = item_get W -> item_claims V = item_claims W ->
    item_title V = item_title W ->
    treat V writer self stop page item =
      (if stop then (Raised KeyboardInterrupt, item, [])
       else (Returned tt, item_get W item,
             [EvCurrentPage page;
              EvOutput (MsgAllClaims page (item_title W (item_get W item)))]))).
  { intros V Hg Hc Ht. unfold treat. destruct stop; [reflexivity|].
    unfold treat_page, bind, emit, update_item, the_item.
    rewrite Hg, Hc, Ht.
    rewrite bool_decide_eq_true_2 by exact Hsub. reflexivity. }
  pose proof (Hall W eq_refl eq_refl eq_refl) as HW.
  split; [exact HW|]. split.
  - rewrite HW. destruct stop; reflexivity.
  - intros W' Hg Hc Ht. rewrite HW. apply Hall; assumption.
Qed.

(** C2. Duplicate guard: a field mapped to a property whose identifier
    is among the claim identifiers of the item as it is now is skipped with
    'already exists', whatever its value holds (a field that is empty after
    trimming is dropped before, silently).  The Claim Writer is not called,
    and neither the type of the property nor any parser is consulted: the
    result is the same in every world with the same item. *)
Theorem duplicate_guard (page : Page) (field value : string)
    (item : ItemPage) (prop : string) :
  fields self !! Py.strip field = Some prop ->
  Claim_getID W prop ∈ item_claims W (item_get W item) ->
  treat_field W writer self page (field, value) item =
    (if Py.truthy (Py.strip field) && Py.truthy (Py.strip value)
     then (tt, item_get W item,
           [EvOutput (MsgAlreadyExists (Claim_getID W prop))])
     else (tt, item, []))
  ∧ writer_activity (log_of (treat_field W writer self page (field, value) item)) = []
  ∧ (∀ W' : World Page ItemPage,
       item_get W' = item_get W -> item_claims W' = item_claims W ->
       Claim_getID W' = Claim_getID W ->
       treat_field W' writer self page (field, value) item =
       treat_field W writer self page (field, value) item).
Proof.
  intros Hmap Hdup.
  assert (Hall : ∀ V : World Page ItemPage,
    item_get V = item_get W -> item_claims V = item_claims W ->
    Claim_getID V = Claim_getID W ->
    treat_field V writer self page (field, value) item =
      (if Py.truthy (Py.strip field) && Py.truthy (Py.strip value)
       then (tt, item_get W item,
             [EvOutput (MsgAlreadyExists (Claim_getID W prop))])
       else (tt, item, []))).
  { intros V Hg Hc Hi. unfold treat_field; cbn [fst snd].
    destruct (Py.truthy (Py.strip field)); [|reflexivity].
    destruct (Py.truthy (Py.strip value)); [|reflexivity].
    cbn [negb orb andb]. rewrite Hmap.
    unfold bind, update_item, the_item, emit; cbn [claim_prop].
    rewrite Hg, Hc, Hi.
    rewrite bool_decide_eq_true_2 by exact Hdup. reflexivity. }
  pose proof (Hall W eq_refl eq_refl eq_refl) as HW.
  split; [exact HW|]. split.
  - rewrite HW. destruct (_ && _); reflexivity.
  - intros W' Hg Hc Hi. rewrite HW. apply Hall; assumption.
Qed.

Lemma treat_field_entity page field value item prop :
  Py.truthy (Py.strip field) = true ->
  Py.truthy (Py.strip value) = true ->
  fields self !! Py.strip field = Some prop ->
  unclaimed W prop item ->
  Claim_type W prop = "wikibase-item" ->
  treat_field W writer self page (field, value) item =
    claim_entity_by_title W writer self page prop
      (match link_regex_search W (Py.strip value) with
       | Some group1 => group1
       | None => Py.strip value
       end) (item_get W item).
Proof.
  intros Hf Hv Hmap Hnew Hty.
  rewrite (treat_field_mapped page field value item prop) by assumption.
  unfold claim_target_of, claim_entity_by_title; cbn [claim_prop].
  rewrite Hty; cbn [String.eqb Ascii.eqb Bool.eqb].
  unfold bind, the_item, logged, ret.
  destruct (_template_link_target W _ _) as [l [li|]]; cbn [fst snd].
  - destruct (call_user_add_claim writer self _ _ _) as [[u it2] l2].
    cbn [app]. rewrite ?app_nil_r. reflexivity.
  - cbn [app]. rewrite ?app_nil_r. reflexivity.
Qed.

(** C3. Entity-reference link extraction: for a field that reaches the
    dispatch and is mapped to a property of type 'wikibase-item', the title
    that is resolved is the target of the first wiki link found in the
    trimmed value when there is link markup, whatever text surrounds it,
    and the whole trimmed value when there is none. *)
Theorem entity_reference_link_text (page : Page) (field value : string)
    (item : ItemPage) (prop : string) :
  Py.truthy (Py.strip field) = true ->
  Py.truthy (Py.strip value) = true ->
  fields self !! Py.strip field = Some prop ->
  unclaimed W prop item ->
  Claim_type W prop = "wikibase-item" ->
  (∀ target : string,
     link_regex_search W (Py.strip value) = Some target ->
     treat_field W writer self page (field, value) item =
       claim_entity_by_title W writer self page prop target (item_get W item))
  ∧ (link_regex_search W (Py.strip value) = None ->
     treat_field W writer self page (field, value) item =
       claim_entity_by_title W writer self page prop (Py.strip value) (item_get W item)).
Proof.
  intros Hf Hv Hmap Hnew Hty.
  pose proof (treat_field_entity page field value item prop
                Hf Hv Hmap Hnew Hty) as H.
  split.
  - intros target Hm. rewrite Hm in H. exact H.
  - intros Hm. rewrite Hm in H. exact H.
Qed.

Lemma link_target_self item link_text li :
  ItemPage_fromPage W (final_page W link_text) = Some li ->
  item_title W li = item_title W item ->
  (_template_link_target W item link_text).2 = None
  ∧ (page_exists W (Page_of_link W (mkLink link_text None None)) = true ->
     item_exists W li = true ->
     _template_link_target W item link_text =
       ([EvOutput (MsgSelfLink (final_page W link_text))], None)).
Proof.
  unfold final_page, _template_link_target. intros Hli Ht.
  destruct (page_exists W _); cbn [negb].
  - rewrite Hli. destruct (item_exists W li); cbn [negb].
    + rewrite Ht, String.eqb_refl. split; [reflexivity | intros; reflexivity].
    + split; [reflexivity | intros; discriminate].
  - split; [reflexivity | intros; discriminate].
Qed.

(** C4. Self-link guard: when the page an entity-reference value ends at
    (after following one redirect) has an item whose identifier is the
    identifier of the item being edited, no claim is created for the field;
    when the linked page and its item exist, the field is skipped with the
    message that the page links to itself. *)
Theorem self_link_guard (page : Page) (field value : string)
    (item linked : ItemPage) (prop : string) :
  let link_text :=
    match link_regex_search W (Py.strip value) with
    | Some group1 => group1
    | None => Py.strip value
    end in
  Py.truthy (Py.strip field) = true ->
  Py.truthy (Py.strip value) = true ->
  fields self !! Py.strip field = Some prop ->
  unclaimed W prop item ->
  Claim_type W prop = "wikibase-item" ->
  ItemPage_fromPage W (final_page W link_text) = Some linked ->
  item_title W linked = item_title W (item_get W item) ->
  writer_activity (log_of (treat_field W writer self page (field, value) item)) = []
  ∧ item_of (treat_field W writer self page (field, value) item) = item_get W item
  ∧ (page_exists W (Page_of_link W (mkLink link_text None None)) = true ->
     item_exists W linked = true ->
     treat_field W writer self page (field, value) item =
       (tt, item_get W item, [EvOutput (MsgSelfLink (final_page W link_text))])).
Proof.
  intros link_text Hf Hv Hmap Hnew Hty Hli Ht.
  rewrite (treat_field_entity page field value item prop) by assumption.
  fold link_text.
  destruct (link_target_self (item_get W item) link_text linked Hli Ht)
    as [Hnone Hself].
  unfold claim_entity_by_title, bind, the_item, logged, ret.
  destruct (_template_link_target W (item_get W item) link_text)
    as [l r] eqn:E; cbn [fst snd] in *. subst r.
  repeat split.
  - unfold log_of; cbn [snd]. rewrite app_nil_r.
    unfold _template_link_target in E.
    repeat match type of E with
           | context [if ?b then _ else _] => destruct b
           | context [match ?o with Some _ => _ | None => _ end] => destruct o
           end; inversion E; reflexivity.
  - intros Hex Hiex. specialize (Hself Hex Hiex).
    inversion Hself; subst. reflexivity.
Qed.

(** C5. URL parsing: for a field that reaches the dispatch and is mapped
    to a property of type 'url', the value given to the Claim Writer is the
    URL of the first external link that the link expression finds in the
    trimmed value; when it finds none, the field is skipped: nothing is
    written and the item is left as it is. *)
Theorem url_parsing (page : Page) (field value : string)
    (item : ItemPage) (prop : string) :
  Py.truthy (Py.strip field) = true ->
  Py.truthy (Py.strip value) = true ->
  fields self !! Py.strip field = Some prop ->
  unclaimed W prop item ->
  Claim_type W prop = "url" ->
  (∀ url : string,
     linkR_search W (Py.strip value) = Some url ->
     treat_field W writer self page (field, value) item =
       call_user_add_claim writer self (mkClaim prop (Some (TString url)))
         (page_site W page) (item_get W item))
  ∧ (linkR_search W (Py.strip value) = None ->
     treat_field W writer self page (field, value) item = (tt, item_get W item, [])).
Proof.
  intros Hf Hv Hmap Hnew Hty.
  rewrite (treat_field_mapped page field value item prop) by assumption.
  unfold claim_target_of; cbn [claim_prop].
  rewrite Hty; cbn [String.eqb Ascii.eqb Bool.eqb orb].
  split.
  - intros url Hm. rewrite Hm. unfold bind, ret.
    destruct (call_user_add_claim writer self _ _ _) as [[u it2] l2]. reflexivity.
  - intros Hm. rewrite Hm. reflexivity.
Qed.


Lemma unsupported_eqb (type : string) :
  type ∉ supported_types ->
  String.eqb type "wikibase-item" = false
  ∧ String.eqb type "string" = false
  ∧ String.eqb type "external-id" = false
  ∧ String.eqb type "url" = false
  ∧ String.eqb type "commonsMedia" = false.
Proof.
  unfold supported_types. intros H.
  repeat (apply not_elem_of_cons in H; destruct H as [? H]).
  repeat split; apply String.eqb_neq; assumption.
Qed.

(** C7. Unsupported value kinds: for a field mapped to a property whose
    type is none of 'wikibase-item', 'string', 'external-id', 'url' and
    'commonsMedia', and for every value, the Claim Writer is not called and
    the item is only loaded; when the field reaches the dispatch, all that
    happens is the message that the type is not supported. *)
Theorem unsupported_kind (page : Page) (field value : string)
    (item : ItemPage) (prop : string) :
  fields self !! Py.strip field = Some prop ->
  Claim_type W prop ∉ supported_types ->
  writer_activity (log_of (treat_field W writer self page (field, value) item)) = []
  ∧ (item_of (treat_field W writer self page (field, value) item) = item
     ∨ item_of (treat_field W writer self page (field, value) item) = item_get W item)
  ∧ (Py.truthy (Py.strip field) = true ->
     Py.truthy (Py.strip value) = true ->
     unclaimed W prop item ->
     treat_field W writer self page (field, value) item =
       (tt, item_get W item, [EvOutput (MsgUnsupported (Claim_type W prop))])).
Proof.
  intros Hmap Hty.
  destruct (unsupported_eqb _ Hty) as (E1 & E2 & E3 & E4 & E5).
  assert (Hreach : Py.truthy (Py.strip field) = true ->
     Py.truthy (Py.strip value) = true ->
     unclaimed W prop item ->
     treat_field W writer self page (field, value) item =
       (tt, item_get W item, [EvOutput (MsgUnsupported (Claim_type W prop))])).
  { intros Hf Hv Hnew.
    rewrite (treat_field_mapped page field value item prop) by assumption.
    unfold claim_target_of; cbn [claim_prop].
    rewrite E1, E2, E3, E4, E5. reflexivity. }
  split; [|split; [|exact Hreach]].
  - destruct (Py.truthy (Py.strip field)) eqn:Hf;
      [destruct (Py.truthy (Py.strip value)) eqn:Hv|].
    + destruct (decide (Claim_getID W prop ∈ item_claims W (item_get W item)))
        as [Hdup|Hnew].
      * unfold treat_field; cbn [fst snd]. rewrite Hf, Hv, Hmap.
        cbn [negb orb]. unfold bind, update_item, the_item, emit.
        cbn [claim_prop]. rewrite bool_decide_eq_true_2 by exact Hdup.
        reflexivity.
      * rewrite Hreach by (reflexivity || exact Hnew). reflexivity.
    + unfold treat_field; cbn [fst snd]. rewrite Hf, Hv. reflexivity.
    + unfold treat_field; cbn [fst snd]. rewrite Hf. reflexivity.
  - destruct (Py.truthy (Py.strip field)) eqn:Hf;
      [destruct (Py.truthy (Py.strip value)) eqn:Hv|].
    + right.
      destruct (decide (Claim_getID W prop ∈ item_claims W (item_get W item)))
        as [Hdup|Hnew].
      * unfold treat_field; cbn [fst snd]. rewrite Hf, Hv, Hmap.
        cbn [negb orb]. unfold bind, update_item, the_item, emit.
        cbn [claim_prop]. rewrite bool_decide_eq_true_2 by exact Hdup.
        reflexivity.
      * rewrite Hreach by (reflexivity || exact Hnew). reflexivity.
    + left. unfold treat_field; cbn [fst snd]. rewrite Hf, Hv. reflexivity.
    + left. unfold treat_field; cbn [fst snd]. rewrite Hf. reflexivity.
Qed.

End TreatProperties.

Section MainProperties.

Context {Page ItemPage Gen : Type}.
Variable W : World Page ItemPage.
Variable C : @CommandLine Page ItemPage Gen.

#[local] Abbreviation event := (event Page ItemPage).

Lemma fill_by_index (k : nat) : ∀ (pre rest : list string) (m : gmap string string),
  length rest = 2 * k ->
  fold_left
    (fun (fields : gmap string string) i =>
       match (pre ++ rest) !! i, (pre ++ rest) !! (S i) with
       | Some name, Some pid => <[name := pid]> fields
       | _, _ => fields
       end)
    (Py.range2_from (length pre) k) m
  = fold_left put (consecutive_pairs rest) m.
Proof.
  induction k as [|k IH]; intros pre rest m Hlen.
  - destruct rest; [reflexivity | discriminate].
  - destruct rest as [|name [|pid rest]]; try (cbn in Hlen; lia).
    cbn [Py.range2_from fold_left consecutive_pairs].
    rewrite (lookup_app_r pre) by lia. rewrite Nat.sub_diag.
    rewrite (lookup_app_r pre) by lia.
    replace (S (length pre) - length pre) with 1 by lia.
    cbn [lookup list_lookup].
    specialize (IH (pre ++ [name; pid]) rest (<[name := pid]> m)).
    rewrite <- app_assoc in IH. cbn [app] in IH.
    rewrite length_app in IH. cbn [length] in IH.
    replace (length pre + 2) with (2 + length pre) in IH by lia.
    apply IH. cbn in Hlen. lia.
Qed.

Lemma fields_of_args_pairs (args : list string) :
  length args mod 2 = 0 ->
  fields_of_args args = fold_left put (consecutive_pairs args) ∅.
Proof.
  intros Heven. unfold fields_of_args, Py.range2.
  assert (Hk : length args = 2 * (length args / 2)).
  { pose proof (Nat.div_mod_eq (length args) 2). lia. }
  replace (Nat.div2 (S (length args))) with (length args / 2)
    by (rewrite Hk at 2; symmetry; apply Nat.div2_succ_double).
  exact (fill_by_index (length args / 2) [] args ∅ Hk).
Qed.

Lemma consecutive_pairs_lookup (i : nat) : ∀ (l : list string) name pid,
  consecutive_pairs l !! i = Some (name, pid)
  ↔ l !! (2 * i) = Some name ∧ l !! (2 * i + 1) = Some pid.
Proof.
  induction i as [|i IH]; intros l name pid.
  - destruct l as [|a [|b r]]; cbn; split; intros H;
      try discriminate; try (destruct H; discriminate).
    + inversion H; subst; split; reflexivity.
    + destruct H as [H1 H2]. inversion H1; inversion H2; reflexivity.
  - replace (2 * S i) with (S (S (2 * i))) by lia.
    destruct l as [|a [|b r]]; cbn [consecutive_pairs].
    + cbn. split; [discriminate | intros [H _]; discriminate].
    + cbn. split; [discriminate | intros [H _]; discriminate].
    + cbn [lookup list_lookup plus]. apply IH.
Qed.

Lemma fold_put_lookup (ps : list (string * string)) :
  ∀ (m : gmap string string) name pid,
  fold_left put ps m !! name = Some pid
  ↔ (∃ i, ps !! i = Some (name, pid)
          ∧ ∀ j v, ps !! j = Some (name, v) -> j <= i)
    ∨ (m !! name = Some pid ∧ ∀ j v, ps !! j ≠ Some (name, v)).
Proof.
  induction ps as [|[k v] ps IH] using rev_ind; intros m name pid.
  - cbn. split.
    + intros H. right. split; [exact H | intros j w; destruct j; discriminate].
    + intros [(i & H & _) | [H _]]; [destruct i; discriminate | exact H].
  - rewrite fold_left_app. cbn [fold_left]. unfold put at 1. cbn [fst snd].
    assert (Hlast : (ps ++ [(k, v)]) !! length ps = Some (k, v)).
    { rewrite lookup_app_r by lia. rewrite Nat.sub_diag. reflexivity. }
    assert (Hold : ∀ j x, j < length ps ->
              (ps ++ [(k, v)]) !! j = Some x ↔ ps !! j = Some x).
    { intros j x Hj. rewrite lookup_app_l by exact Hj. reflexivity. }
    assert (Hbound : ∀ j x, (ps ++ [(k, v)]) !! j = Some x -> j <= length ps).
    { intros j x Hj. apply lookup_lt_Some in Hj.
      rewrite length_app in Hj. cbn in Hj. lia. }
    destruct (decide (k = name)) as [->|Hne].
    + rewrite lookup_insert_eq. split.
      * intros H. inversion H; subst. left. exists (length ps).
        split; [exact Hlast | intros j w Hj; eapply Hbound; exact Hj].
      * intros [(i & Hi & Hmax) | [_ Hno]].
        -- pose proof (Hmax _ _ Hlast) as Hle.
           pose proof (Hbound _ _ Hi) as Hge.
           assert (i = length ps) by lia. subst i.
           rewrite Hlast in Hi. inversion Hi; reflexivity.
        -- exfalso. exact (Hno _ _ Hlast).
    + rewrite lookup_insert_ne by exact Hne. rewrite IH. split.
      * intros [(i & Hi & Hmax) | [Hm Hno]].
        -- left. exists i. pose proof (lookup_lt_Some _ _ _ Hi) as Hlt.
           split; [apply Hold; assumption|].
           intros j w Hj. pose proof (Hbound _ _ Hj) as Hb.
           destruct (decide (j = length ps)) as [->|Hjn].
           ++ rewrite Hlast in Hj. inversion Hj; subst. contradiction.
           ++ apply (Hmax j w). apply Hold; [lia | exact Hj].
        -- right. split; [exact Hm|]. intros j w Hj.
           pose proof (Hbound _ _ Hj) as Hb.
           destruct (decide (j = length ps)) as [->|Hjn].
           ++ rewrite Hlast in Hj. inversion Hj; subst. contradiction.
           ++ apply (Hno j w). apply Hold; [lia | exact Hj].
      * intros [(i & Hi & Hmax) | [Hm Hno]].
        -- pose proof (Hbound _ _ Hi) as Hb.
           destruct (decide (i = length ps)) as [->|Hin].
           ++ rewrite Hlast in Hi. inversion Hi; subst. contradiction.
           ++ left. exists i. split; [apply Hold; [lia | exact Hi]|].
              intros j w Hj. apply (Hmax j w).
              apply Hold; [eapply lookup_lt_Some; exact Hj | exact Hj].
        -- right. split; [exact Hm|]. intros j w Hj. apply (Hno j w).
           apply Hold; [eapply lookup_lt_Some; exact Hj | exact Hj].
Qed.

(** The entries of the field mapping are the consecutive pairs of the
    field arguments whose name does not come again at a later pair. *)
Lemma fields_of_args_lookup (args : list string) (name pid : string) :
  length args mod 2 = 0 ->
  fields_of_args args !! name = Some pid
  ↔ ∃ i, args !! (2 * i) = Some name ∧ args !! (2 * i + 1) = Some pid
         ∧ ∀ j, args !! (2 * j) = Some name -> j <= i.
Proof.
  intros Heven. rewrite fields_of_args_pairs by exact Heven.
  rewrite fold_put_lookup. split.
  - intros [(i & Hi & Hmax) | [Hm _]]; [|rewrite lookup_empty in Hm; discriminate].
    exists i. apply consecutive_pairs_lookup in Hi. destruct Hi as [H1 H2].
    repeat split; try assumption.
    intros j Hj. pose proof (lookup_lt_Some _ _ _ Hj) as Hlt.
    destruct (args !! (2 * j + 1)) as [w|] eqn:Hw.
    + apply (Hmax j w). apply consecutive_pairs_lookup. split; assumption.
    + apply lookup_ge_None in Hw.
      pose proof (Nat.div_mod_eq (length args) 2). lia.
  - intros (i & H1 & H2 & Hmax). left. exists i. split.
    + apply consecutive_pairs_lookup. split; assumption.
    + intros j w Hj. apply consecutive_pairs_lookup in Hj. apply Hmax, Hj.
Qed.

(** The argument loop calls [handleArg] and [input] and nothing else. *)
Lemma parse_args_log (args : list string) :
  List.filter past_configuration (a_log (parse_args C args)) = [].
Proof.
  unfold parse_args.
  assert (H : ∀ (l : list string) (st : arg_state),
            List.filter past_configuration (a_log st) = [] ->
            List.filter past_configuration (a_log (fold_left (main_arg C) l st)) = []).
  { induction l as [|a l IH]; intros st Hst; [exact Hst|].
    cbn [fold_left]. apply IH. unfold main_arg.
    destruct (Py.startswith a "-template").
    - destruct (String.length a =? 9)%nat; cbn [a_log]; [|exact Hst].
      rewrite List.filter_app, Hst. reflexivity.
    - destruct (handleArg C (a_gen st) a) as [g handled].
      destruct handled; cbn [a_log]; rewrite List.filter_app, Hst; reflexivity. }
  apply H. reflexivity.
Qed.

(** C8 (as amended). Once a template title has been given, a list of
    field arguments with an odd number of entries makes [main] raise
    [ValueError] before it asks for the combined generator, builds a bot or
    treats a page: all it has done is classify the arguments.  For a list
    with an even number of entries, the field mapping binds a name to a
    property identifier exactly when they are a consecutive pair of the list
    and the name does not come again in a later pair, and that mapping is
    the one the bot is built with. *)
Theorem field_count_check (args : list string) :
  let st := parse_args C args in
  let field_args := a_commandline_arguments st in
  Py.truthy (a_template_title st) = true ->
  (length field_args mod 2 = 1 ->
     main W C args = (a_log st, Raised ValueError)
     ∧ List.filter past_configuration (main W C args).1 = [])
  ∧ (length field_args mod 2 = 0 ->
     (∀ name pid : string,
        fields_of_args field_args !! name = Some pid
        ↔ ∃ i, field_args !! (2 * i) = Some name
               ∧ field_args !! (2 * i + 1) = Some pid
               ∧ ∀ j, field_args !! (2 * j) = Some name -> j <= i)
     ∧ (∀ log bot, main W C args = (log, Returned (Some bot)) ->
          fields bot = fields_of_args field_args)).
Proof.
  intros st field_args Htitle. split.
  - intros Hodd.
    assert (Hmain : main W C args = (a_log st, Raised ValueError)).
    { unfold main. fold st. rewrite Htitle. cbn [negb].
      fold field_args. rewrite Hodd. reflexivity. }
    split; [exact Hmain|]. rewrite Hmain. apply parse_args_log.
  - intros Heven. split.
    + intros name pid. apply fields_of_args_lookup. exact Heven.
    + intros log bot. unfold main. fold st. rewrite Htitle. cbn [negb].
      fold field_args. rewrite Heven. cbn [Nat.eqb negb].
      destruct (getCombinedGenerator C (a_gen st)) as [g|];
        unfold HarvestRobot_init;
        destruct (getTemplateSynonyms W _) as [l [titles|e]];
        intros H; inversion H; reflexivity.
Qed.

End MainProperties.

Section RunProperties.

Context {Page ItemPage : Type}.
Variable W : World Page ItemPage.
Variable writer :
  @HarvestRobot Page ItemPage -> Claim Page ItemPage -> Site -> @M Page ItemPage unit.
Variable self : @HarvestRobot Page ItemPage.

#[local] Abbreviation event := (event Page ItemPage).

(** While [treat] works on a page, each step performs the next pending
    effect; the flag is not looked at. *)
Lemma exec_pending (flag : bool) (pre : list event) :
  ∀ (post : list event) (rest : list (Page * ItemPage)) (log : list event),
  exec W writer self (repeat Step (length pre))
       (mkConfig flag (InTreat (pre ++ post) rest) log)
  = mkConfig flag (InTreat post rest) (log ++ pre).
Proof.
  induction pre as [|e pre IH]; intros post rest log.
  - cbn. rewrite app_nil_r. reflexivity.
  - cbn [length repeat app]. unfold exec in *. cbn [fold_left].
    unfold step at 2. cbn [ctl running negb willstop done_log].
    rewrite IH. rewrite <- app_assoc. reflexivity.
Qed.

Lemma exec_app (ts1 ts2 : list tick) (c : config) :
  exec W writer self (ts1 ++ ts2) c = exec W writer self ts2 (exec W writer self ts1 c).
Proof. unfold exec. apply fold_left_app. Qed.

(** A first interrupt after the effects [pre] of a page: the rest of the
    page is carried out all the same. *)
Lemma exec_first_request (pre post : list event)
    (pages : list (Page * ItemPage)) (log : list event) :
  exec W writer self
    (repeat Step (length pre) ++ [Sigint] ++ repeat Step (length post) ++ [Step])
    (mkConfig false (InTreat (pre ++ post) pages) log)
  = mkConfig true (AtPage pages) (log ++ pre ++ [EvOutput MsgCtrlC] ++ post).
Proof.
  rewrite !exec_app. rewrite exec_pending.
  unfold exec at 3. cbn [fold_left]. unfold step at 1.
  cbn [ctl running negb willstop done_log _signal_handler].
  pose proof (exec_pending true post [] pages
                ((log ++ pre) ++ [EvOutput MsgCtrlC])) as H.
  rewrite app_nil_r in H. rewrite H.
  unfold exec. cbn [fold_left]. unfold step.
  cbn [ctl running negb willstop done_log].
  rewrite <- !app_assoc. reflexivity.
Qed.

(** C9. Two-tier cancellation.  [treat] tests the flag on entry and
    nowhere else: with the flag set it raises [KeyboardInterrupt] before
    any effect, otherwise it runs the page, and that run does not depend on
    the flag.  A first interrupt while a page is in progress, after any
    number [n] of its effects, only sets the flag and prints the notice; the
    page is carried through to its last effect, and the call of [treat] for
    the next page raises before that page has any effect.  An interrupt that
    finds the flag set raises [KeyboardInterrupt] at once, between pages as
    well as in the middle of one. *)
Theorem two_tier_cancellation (page : Page) (item : ItemPage)
    (next : Page * ItemPage) (pages : list (Page * ItemPage))
    (pending log : list event) (n : nat) :
  let effects := log_of (treat_page W writer self page item) in
  (* the flag is tested on entry, once *)
  treat W writer self true page item = (Raised KeyboardInterrupt, item, [])
  ∧ treat W writer self false page item =
      (Returned tt, item_of (treat_page W writer self page item), effects)
  (* the first request *)
  ∧ _signal_handler (Page := Page) (ItemPage := ItemPage) false =
      (true, [EvOutput MsgCtrlC], Returned tt)
  ∧ exec W writer self
      ([Step] ++ repeat Step (length (take n effects)) ++ [Sigint]
       ++ repeat Step (length (drop n effects)) ++ [Step] ++ [Step])
      (mkConfig false (AtPage ((page, item) :: next :: pages)) log)
    = mkConfig true Aborted
        (log ++ take n effects ++ [EvOutput MsgCtrlC] ++ drop n effects)
  (* the second request *)
  ∧ _signal_handler (Page := Page) (ItemPage := ItemPage) true =
      (true, [], Raised KeyboardInterrupt)
  ∧ step W writer self Sigint (mkConfig true (InTreat pending pages) log)
    = mkConfig true Aborted log
  ∧ step W writer self Sigint (mkConfig true (AtPage pages) log)
    = mkConfig true Aborted log.
Proof.
  intros effects.
  assert (Hentry : treat W writer self false page item =
            (Returned tt, item_of (treat_page W writer self page item), effects)).
  { unfold effects, treat, item_of, log_of.
    destruct (treat_page W writer self page item) as [[u it] l]. reflexivity. }
  repeat split.
  - exact Hentry.
  - rewrite (exec_app [Step]).
    assert (Hin : exec W writer self [Step]
                    (mkConfig false (AtPage ((page, item) :: next :: pages)) log)
                  = mkConfig false
                      (InTreat (take n effects ++ drop n effects) (next :: pages))
                      log).
    { unfold exec. cbn [fold_left]. unfold step.
      cbn [ctl running negb willstop done_log]. rewrite Hentry.
      rewrite take_drop. reflexivity. }
    rewrite Hin.
    replace (repeat Step (length (take n effects)) ++ [Sigint]
             ++ repeat Step (length (drop n effects)) ++ [Step] ++ [Step])
      with ((repeat Step (length (take n effects)) ++ [Sigint]
             ++ repeat Step (length (drop n effects)) ++ [Step]) ++ [Step])
      by (rewrite <- !app_assoc; reflexivity).
    rewrite exec_app, exec_first_request.
    unfold exec. cbn [fold_left]. unfold step.
    cbn [ctl running negb willstop done_log]. destruct next as [page' item'].
    reflexivity.
  - unfold step, _signal_handler.
    cbn [ctl running negb willstop done_log]. rewrite app_nil_r. reflexivity.
  - unfold step, _signal_handler.
    cbn [ctl running negb willstop done_log]. rewrite app_nil_r. reflexivity.
Qed.

End RunProperties.

Section AlwaysProperties.

Context {Page ItemPage : Type}.
Variable W : World Page ItemPage.

#[local] Abbreviation event := (event Page ItemPage).
#[local] Abbreviation M := (@M Page ItemPage).
#[local] Abbreviation quiet := (@quiet Page ItemPage _).

Lemma committed_unasked_app_n (n : nat) : ∀ l1 l2 : list event,
  length l1 <= n ->
  committed_unasked l1 -> committed_unasked l2 -> committed_unasked (l1 ++ l2).
Proof.
  induction n as [|n IH]; intros l1 l2 Hn H1 H2.
  - destruct l1; [exact H2 | cbn in Hn; lia].
  - destruct l1 as [|e l1]; [exact H2|]. cbn [length] in Hn.
    destruct e; cbn [committed_unasked app] in *;
      try contradiction; try (apply IH; [lia | assumption..]).
    destruct l1 as [|e' l1]; [contradiction|].
    destruct e'; try contradiction. cbn [app].
    destruct H1 as [Hc H1]. split; [exact Hc|].
    apply IH; [cbn [length] in Hn; lia | assumption..].
Qed.

Lemma committed_unasked_app (l1 l2 : list event) :
  committed_unasked l1 -> committed_unasked l2 -> committed_unasked (l1 ++ l2).
Proof. apply (committed_unasked_app_n (length l1)). lia. Qed.

Lemma committed_unasked_no_prompt (l : list event) :
  committed_unasked l -> List.filter is_prompt l = [].
Proof.
  assert (H : ∀ n (l : list event), length l <= n ->
              committed_unasked l -> List.filter is_prompt l = []).
  { induction n as [|n IH]; intros k Hn Hk.
    - destruct k; [reflexivity | cbn in Hn; lia].
    - destruct k as [|e k]; [reflexivity|]. cbn [length] in Hn.
      destruct e; cbn [committed_unasked List.filter is_prompt] in *;
        try contradiction; try (apply IH; [lia | assumption]).
      destruct k as [|e' k]; [contradiction|].
      destruct e'; try contradiction.
      cbn [List.filter is_prompt]. apply IH; [cbn [length] in Hn; lia | tauto]. }
  apply (H (length l)). lia.
Qed.

Lemma quiet_ret {A} (a : A) : quiet (ret a).
Proof. intros it. exact I. Qed.

Lemma quiet_bind {A B} (m : M A) (k : A -> M B) :
  quiet m -> (∀ a, quiet (k a)) -> quiet (bind m k).
Proof.
  intros Hm Hk it. unfold bind, log_of.
  specialize (Hm it). unfold log_of in Hm.
  destruct (m it) as [[a it1] l1]. specialize (Hk a it1). unfold log_of in Hk.
  destruct (k a it1) as [[b it2] l2]. cbn [snd] in *.
  apply committed_unasked_app; assumption.
Qed.

Lemma quiet_for_each {A} (l : list A) (body : A -> M unit) :
  (∀ x, quiet (body x)) -> quiet (for_each l body).
Proof.
  intros Hb. induction l as [|x l IH]; cbn [for_each].
  - apply quiet_ret.
  - apply quiet_bind; [apply Hb | intros _; exact IH].
Qed.

Lemma quiet_output (m : message Page) : quiet (emit (EvOutput m)).
Proof. intros it. exact I. Qed.

Lemma quiet_link_target item link_text :
  quiet (logged (_template_link_target W item link_text)).
Proof.
  intros it. unfold logged, log_of, _template_link_target. cbn [snd].
  repeat match goal with
         | |- context [if ?b then _ else _] => destruct b
         | |- context [match ?o with Some _ => _ | None => _ end] => destruct o
         end; exact I.
Qed.

Lemma quiet_claim_target_of claim value :
  quiet (claim_target_of W claim value).
Proof.
  unfold claim_target_of.
  repeat match goal with
         | |- quiet (if ?b then _ else _) => destruct b
         | |- quiet (match ?o with Some _ => _ | None => _ end) => destruct o
         | |- quiet (bind _ _) => apply quiet_bind; [|intros ?]
         | |- quiet (ret _) => apply quiet_ret
         | |- quiet (emit (EvOutput _)) => apply quiet_output
         | |- quiet (logged (_template_link_target _ _ _)) =>
             apply quiet_link_target
         | |- quiet the_item => intros ?; exact I
         end.
Qed.

Lemma quiet_user_add_claim self claim source :
  getOption self "always" = true ->
  quiet (call_user_add_claim (WikidataBot_user_add_claim W) self claim source).
Proof.
  intros Halways it. unfold call_user_add_claim, WikidataBot_user_add_claim.
  rewrite Halways.
  unfold bind, the_item, emit, update_item, log_of. cbn. split; [reflexivity | exact I].
Qed.

Lemma quiet_treat_page self page :
  getOption self "always" = true -> quiet (treat_page W (WikidataBot_user_add_claim W) self page).
Proof.
  intros Halways. unfold treat_page.
  apply quiet_bind; [intros ?; exact I | intros _].
  apply quiet_bind; [intros ?; exact I | intros _].
  apply quiet_bind; [intros ?; exact I | intros item].
  destruct (bool_decide _); [apply quiet_output|].
  apply quiet_for_each. intros [template fielddict]. unfold treat_template.
  cbn [fst snd].
  destruct (template_page_title W _ _); [|intros ?; exact I].
  destruct (bool_decide _); [|apply quiet_ret].
  apply quiet_for_each. intros [field value]. unfold treat_field.
  destruct (_ || _); [apply quiet_ret|].
  destruct (fields self !! _); [|apply quiet_ret].
  apply quiet_bind; [intros ?; exact I | intros _].
  apply quiet_bind; [intros ?; exact I | intros it].
  destruct (bool_decide _); [apply quiet_output|].
  apply quiet_bind; [apply quiet_claim_target_of | intros [t|]].
  - apply quiet_user_add_claim. exact Halways.
  - apply quiet_ret.
Qed.

(** C10. Every bot that [HarvestRobot.__init__] builds has its option
    'always' set to True, whatever the option defaults were, and no keyword
    option of its own: the option reads True.  So in every call of [treat]
    by such a bot, each claim handed to the Claim Writer is committed
    directly, and the operator is never asked to confirm an edit. *)
Theorem always_option_forced (defaults : gmap string bool)
    (gen : option (list (Page * ItemPage))) (title : string)
    (flds : gmap string string)
    (ilog : list event) (bot : @HarvestRobot Page ItemPage) :
  HarvestRobot_init W defaults gen title flds = (ilog, Returned bot) ->
  availableOptions bot = <["always" := true]> defaults
  ∧ getOption bot "always" = true
  ∧ ∀ (stop : bool) (page : Page) (item : ItemPage),
      committed_unasked (log_of (treat W (WikidataBot_user_add_claim W) bot stop page item))
      ∧ List.filter is_prompt (log_of (treat W (WikidataBot_user_add_claim W) bot stop page item)) = [].
Proof.
  intros Hinit. unfold HarvestRobot_init in Hinit.
  destruct (getTemplateSynonyms W _) as [l [titles|e]]; [|discriminate].
  inversion Hinit; subst; clear Hinit.
  assert (Halways : getOption
    {| availableOptions := <["always" := true]> defaults; options := ∅;
       generator := gen;
       templateTitle := Py.replace_char "_" " " title;
       fields := flds; templateTitles := titles |} "always" = true).
  { unfold getOption. cbn [options availableOptions].
    rewrite lookup_empty, lookup_insert_eq. reflexivity. }
  split; [reflexivity|]. split; [exact Halways|].
  intros stop page item.
  assert (Hq : committed_unasked (log_of (treat W (WikidataBot_user_add_claim W)
    {| availableOptions := <["always" := true]> defaults; options := ∅;
       generator := gen;
       templateTitle := Py.replace_char "_" " " title;
       fields := flds; templateTitles := titles |} stop page item))).
  { unfold treat. destruct stop; [exact I|].
    pose proof (quiet_treat_page _ page Halways item) as H.
    unfold log_of in *. destruct (treat_page W _ _ page item) as [[u it] lg].
    exact H. }
  split; [exact Hq | apply committed_unasked_no_prompt; exact Hq].
Qed.

End AlwaysProperties.

(** * Further properties *)

(** ** Trimming *)

Section Trimming.

Lemma chars_inj (s1 s2 : string) : chars s1 = chars s2 -> s1 = s2.
Proof.
  unfold chars. intros H.
  rewrite <- (string_of_list_ascii_of_string s1),
          <- (string_of_list_ascii_of_string s2), H.
  reflexivity.
Qed.

Lemma chars_rev_app (s1 s2 : string) :
  chars (String.rev_app s1 s2) = List.rev (chars s1) ++ chars s2.
Proof.
  revert s2. induction s1 as [|c s1 IH]; intros s2; cbn; [reflexivity|].
  rewrite IH. cbn. rewrite <- app_assoc. reflexivity.
Qed.

Lemma chars_rev (s : string) : chars (String.rev s) = List.rev (chars s).
Proof. unfold String.rev. rewrite chars_rev_app. cbn. apply app_nil_r. Qed.

Lemma chars_lstrip (s : string) : chars (Py.lstrip s) = skip_spaces (chars s).
Proof.
  induction s as [|c s IH]; cbn; [reflexivity|].
  destruct (Py.isspace c); [exact IH | reflexivity].
Qed.

Lemma chars_strip (s : string) :
  chars (Py.strip s)
  = List.rev (skip_spaces (List.rev (skip_spaces (chars s)))).
Proof.
  unfold Py.strip, Py.rstrip.
  rewrite chars_rev, chars_lstrip, chars_rev, chars_lstrip. reflexivity.
Qed.

Lemma skip_spaces_idem (l : list ascii) :
  skip_spaces (skip_spaces l) = skip_spaces l.
Proof.
  induction l as [|c l IH]; cbn; [reflexivity|].
  destruct (Py.isspace c) eqn:E; [exact IH | cbn; rewrite E; reflexivity].
Qed.

Lemma skip_spaces_head (l : list ascii) (c : ascii) (t : list ascii) :
  skip_spaces l = c :: t -> Py.isspace c = false.
Proof.
  induction l as [|d l IH]; cbn; [discriminate|].
  destruct (Py.isspace d) eqn:E; [exact IH|].
  intros H. inversion H; subst. exact E.
Qed.

Lemma skip_spaces_snoc (a : list ascii) (c : ascii) :
  Py.isspace c = false -> skip_spaces (a ++ [c]) = skip_spaces a ++ [c].
Proof.
  intros Hc. induction a as [|d a IH]; cbn; [rewrite Hc; reflexivity|].
  destruct (Py.isspace d); [exact IH | reflexivity].
Qed.

Lemma skip_spaces_nil (l : list ascii) :
  skip_spaces l = [] ↔ forallb Py.isspace l = true.
Proof.
  induction l as [|c l IH]; cbn; [tauto|].
  destruct (Py.isspace c); cbn; [exact IH|]. split; discriminate.
Qed.

(** What trimming leaves of a string that does not start with a blank. *)
Lemma trim_from_head (c : ascii) (t : list ascii) :
  Py.isspace c = false ->
  List.rev (skip_spaces (List.rev (c :: t)))
  = c :: List.rev (skip_spaces (List.rev t)).
Proof.
  intros Hc. cbn [List.rev]. rewrite skip_spaces_snoc by exact Hc.
  rewrite rev_app_distr. reflexivity.
Qed.

Lemma strip_idempotent (s : string) : Py.strip (Py.strip s) = Py.strip s.
Proof.
  apply chars_inj. rewrite (chars_strip (Py.strip s)), (chars_strip s).
  destruct (skip_spaces (chars s)) as [|c t] eqn:E; [reflexivity|].
  pose proof (skip_spaces_head _ _ _ E) as Hc.
  rewrite (trim_from_head c t Hc).
  cbn [skip_spaces]. rewrite Hc.
  rewrite (trim_from_head c _ Hc). f_equal.
  rewrite rev_involutive, skip_spaces_idem. reflexivity.
Qed.

Lemma strip_empty_iff (s : string) :
  Py.truthy (Py.strip s) = false ↔ blank s = true.
Proof.
  unfold blank. rewrite <- skip_spaces_nil.
  assert (Hchars : Py.truthy (Py.strip s) = false ↔ chars (Py.strip s) = []).
  { destruct (Py.strip s); cbn; split; congruence. }
  rewrite Hchars, chars_strip.
  destruct (skip_spaces (chars s)) as [|c t] eqn:E; [tauto|].
  rewrite (trim_from_head c t (skip_spaces_head _ _ _ E)).
  split; discriminate.
Qed.

End Trimming.

(** ** Fields *)

Section FieldProperties.

Context {Page ItemPage : Type}.
Variable W : World Page ItemPage.
Variable writer :
  @HarvestRobot Page ItemPage -> Claim Page ItemPage -> Site -> @M Page ItemPage unit.
Variable self : @HarvestRobot Page ItemPage.

#[local] Abbreviation event := (event Page ItemPage).

(** X1. White space around the name and the value of a template field
    never matters: the field is treated as the trimmed field is. *)
Theorem treat_field_trimmed (page : Page) (field value : string)
    (item : ItemPage) :
  treat_field W writer self page (field, value) item
  = treat_field W writer self page (Py.strip field, Py.strip value) item.
Proof.
  unfold treat_field; cbn [fst snd]. rewrite !strip_idempotent. reflexivity.
Qed.

(** X2. A field whose name or whose value is empty or made of white space
    only is dropped before anything else happens: the item is not loaded,
    nothing is written to the log, the Claim Writer is not called, whatever
    the field mapping is. *)
Theorem blank_field_dropped (page : Page) (field value : string)
    (item : ItemPage) :
  blank field = true ∨ blank value = true ->
  treat_field W writer self page (field, value) item = (tt, item, []).
Proof.
  intros H. unfold treat_field; cbn [fst snd].
  destruct H as [H|H]; apply strip_empty_iff in H; rewrite H; cbn [negb orb].
  - reflexivity.
  - rewrite orb_true_r. reflexivity.
Qed.

(** X3. String and external-identifier properties: a field that reaches the
    dispatch always goes to the Claim Writer, and the target is the trimmed
    value itself; there is no skip for these types. *)
Theorem string_value_verbatim (page : Page) (field value : string)
    (item : ItemPage) (prop : string) :
  Py.truthy (Py.strip field) = true ->
  Py.truthy (Py.strip value) = true ->
  fields self !! Py.strip field = Some prop ->
  unclaimed W prop item ->
  Claim_type W prop = "string" ∨ Claim_type W prop = "external-id" ->
  treat_field W writer self page (field, value) item
  = call_user_add_claim writer self
      (mkClaim prop (Some (TString (Py.strip value))))
      (page_site W page) (item_get W item).
Proof.
  intros Hf Hv Hmap Hnew Hty.
  rewrite (treat_field_mapped W writer self page field value item prop)
    by assumption.
  unfold claim_target_of; cbn [claim_prop]. rewrite strip_idempotent.
  destruct Hty as [-> | ->]; cbn [String.eqb Ascii.eqb Bool.eqb orb];
    unfold bind, ret;
    destruct (call_user_add_claim writer self _ _ _) as [[u it2] l2];
    reflexivity.
Qed.


(** The dispatch leaves the item as it is and logs at most one message,
    and that only when it gives no target. *)
Lemma claim_target_shape (claim : Claim Page ItemPage) (value : string)
    (it : ItemPage) :
  claim_target_of W claim value it = (None, it, [])
  ∨ (∃ m, claim_target_of W claim value it = (None, it, [EvOutput m]))
  ∨ (∃ t, claim_target_of W claim value it = (Some t, it, [])).
Proof.
  unfold claim_target_of.
  destruct (String.eqb _ "wikibase-item").
  { unfold bind, the_item, logged, ret, _template_link_target.
    destruct (page_exists W _); cbn [negb fst snd app];
      [|right; left; eexists; reflexivity].
    destruct (ItemPage_fromPage W _) as [li|]; cbn [fst snd app];
      [|right; left; eexists; reflexivity].
    destruct (item_exists W li); cbn [negb fst snd app];
      [|right; left; eexists; reflexivity].
    destruct (String.eqb _ _); cbn [fst snd app];
      [right; left; eexists; reflexivity | right; right; eexists; reflexivity]. }
  destruct (_ || _); [right; right; eexists; reflexivity|].
  destruct (String.eqb _ "url").
  { destruct (linkR_search W value);
      [right; right; eexists; reflexivity | left; reflexivity]. }
  destruct (String.eqb _ "commonsMedia").
  { destruct (page_exists W _); cbn [negb];
      [right; right; eexists; reflexivity | right; left; eexists; reflexivity]. }
  right; left; eexists; reflexivity.
Qed.

Lemma treat_field_cases (page : Page) (fv : string * string) (item : ItemPage) :
  treat_field W writer self page fv item = (tt, item, [])
  ∨ treat_field W writer self page fv item = (tt, item_get W item, [])
  ∨ (∃ m, treat_field W writer self page fv item
          = (tt, item_get W item, [EvOutput m]))
  ∨ (∃ prop t,
       fields self !! Py.strip fv.1 = Some prop
       ∧ unclaimed W prop item
       ∧ treat_field W writer self page fv item
         = call_user_add_claim writer self (mkClaim prop (Some t))
             (page_site W page) (item_get W item)).
Proof.
  destruct fv as [field value]; cbn [fst].
  destruct (Py.truthy (Py.strip field)) eqn:Hf;
    [|left; unfold treat_field; cbn [fst snd]; rewrite Hf; reflexivity].
  destruct (Py.truthy (Py.strip value)) eqn:Hv;
    [|left; unfold treat_field; cbn [fst snd]; rewrite Hf, Hv; reflexivity].
  destruct (fields self !! Py.strip field) as [prop|] eqn:Hmap;
    [|left; unfold treat_field; cbn [fst snd]; rewrite Hf, Hv, Hmap; reflexivity].
  destruct (decide (Claim_getID W prop ∈ item_claims W (item_get W item)))
    as [Hdup|Hnew].
  { right; right; left. eexists. unfold treat_field; cbn [fst snd].
    rewrite Hf, Hv, Hmap. cbn [negb orb].
    unfold bind, update_item, the_item, emit; cbn [claim_prop].
    rewrite bool_decide_eq_true_2 by exact Hdup. reflexivity. }
  rewrite (treat_field_mapped W writer self page field value item prop)
    by assumption.
  unfold bind.
  destruct (claim_target_shape (mkClaim prop None) (Py.strip value)
              (item_get W item)) as [E | [[m E] | [t E]]]; rewrite E.
  - right; left. reflexivity.
  - right; right; left. exists m. reflexivity.
  - right; right; right. exists prop, t.
    split; [reflexivity|]. split; [exact Hnew|].
    destruct (call_user_add_claim writer self _ _ _) as [[u it2] l2].
    reflexivity.
Qed.


End FieldProperties.

(** ** Pages *)

Section PageProperties.

Context {Page ItemPage : Type}.
Variable W : World Page ItemPage.
Variable writer :
  @HarvestRobot Page ItemPage -> Claim Page ItemPage -> Site -> @M Page ItemPage unit.
Variable self : @HarvestRobot Page ItemPage.

#[local] Abbreviation event := (event Page ItemPage).

Lemma writer_calls_app (l1 l2 : list event) :
  writer_calls (l1 ++ l2) = writer_calls l1 ++ writer_calls l2.
Proof.
  induction l1 as [|e l1 IH]; [reflexivity|].
  destruct e; cbn; rewrite ?IH; reflexivity.
Qed.

Lemma call_user_add_claim_unfold (claim : Claim Page ItemPage) (source : Site)
    (it : ItemPage) :
  call_user_add_claim writer self claim source it
  = (tt, item_of (writer self claim source it),
     EvUserAddClaim it claim source :: log_of (writer self claim source it)).
Proof.
  unfold call_user_add_claim, bind, the_item, emit, item_of, log_of.
  destruct (writer self claim source it) as [[[] it'] l]. reflexivity.
Qed.

(** A relation between the item before, the item after and the log that
    holds of doing nothing and of doing one thing after another holds of a
    loop when it holds of the body. *)
Lemma for_each_rel {A} (R : ItemPage -> ItemPage -> list event -> Prop)
    (body : A -> @M Page ItemPage unit) :
  (∀ it, R it it []) ->
  (∀ it it1 it2 l1 l2, R it it1 l1 -> R it1 it2 l2 -> R it it2 (l1 ++ l2)) ->
  (∀ x it, R it (item_of (body x it)) (log_of (body x it))) ->
  ∀ l it, R it (item_of (for_each l body it)) (log_of (for_each l body it)).
Proof.
  intros Hrefl Htrans Hbody. induction l as [|x l IH]; intros it.
  - apply Hrefl.
  - cbn [for_each]. unfold bind, item_of, log_of.
    specialize (Hbody x it). unfold item_of, log_of in Hbody.
    destruct (body x it) as [[u it1] l1].
    specialize (IH it1). unfold item_of, log_of in IH.
    destruct (for_each l body it1) as [[u' it2] l2]. cbn [fst snd] in *.
    eapply Htrans; eassumption.
Qed.

Lemma treat_page_unfold (page : Page) (item : ItemPage) :
  treat_page W writer self page item
  = if bool_decide (map_img (SA := gset string) (fields self)
                      ⊆ item_claims W (item_get W item))
    then (tt, item_get W item,
          [EvCurrentPage page;
           EvOutput (MsgAllClaims page (item_title W (item_get W item)))])
    else
      (tt,
       item_of (for_each (raw_extracted_templates W page)
                  (treat_template W writer self page) (item_get W item)),
       EvCurrentPage page
       :: log_of (for_each (raw_extracted_templates W page)
                    (treat_template W writer self page) (item_get W item))).
Proof.
  unfold treat_page, bind, emit, update_item, the_item, item_of, log_of.
  destruct (bool_decide _); [reflexivity|].
  destruct (for_each _ _ _) as [[[] it'] l]. reflexivity.
Qed.

(** The relation holds of a page when it holds of loading the item, of the
    messages and of every field. *)
Lemma treat_page_rel (R : ItemPage -> ItemPage -> list event -> Prop)
    (page : Page) :
  (∀ it, R it it []) ->
  (∀ it it1 it2 l1 l2, R it it1 l1 -> R it1 it2 l2 -> R it it2 (l1 ++ l2)) ->
  (∀ it, R it (item_get W it) []) ->
  (∀ it m, R it it [EvOutput m]) ->
  (∀ it m, R it it [EvError m]) ->
  (∀ it p, R it it [EvCurrentPage p]) ->
  (∀ fv it, R it (item_of (treat_field W writer self page fv it))
              (log_of (treat_field W writer self page fv it))) ->
  ∀ item, R item (item_of (treat_page W writer self page item))
            (log_of (treat_page W writer self page item)).
Proof.
  intros Hrefl Htrans Hget Hout Herr Hcur Hfield item.
  rewrite treat_page_unfold. destruct (bool_decide _).
  - unfold item_of, log_of; cbn [fst snd].
    apply (Htrans item (item_get W item) (item_get W item) [] [_; _]);
      [apply Hget|].
    apply (Htrans _ (item_get W item) _ [_] [_]); [apply Hcur | apply Hout].
  - unfold item_of at 1, log_of at 1; cbn [fst snd].
    apply (Htrans item (item_get W item) _ [] (_ :: _)); [apply Hget|].
    apply (Htrans _ (item_get W item) _ [_] _); [apply Hcur|].
    apply for_each_rel; [assumption..|].
    intros [name fielddict] it. unfold treat_template; cbn [fst snd].
    destruct (template_page_title W _ _); [|apply Herr].
    destruct (bool_decide _); [|apply Hrefl].
    apply for_each_rel; assumption.
Qed.

Lemma unmatched_loop (page : Page)
    (templates : list (string * list (string * string))) :
  (∀ tf, tf ∈ templates -> ¬ matches W self (page_site W page) tf) ->
  ∀ it, for_each templates (treat_template W writer self page) it
        = (tt, it, template_errors W (page_site W page) templates).
Proof.
  induction templates as [|tf templates IH]; intros Hno it; [reflexivity|].
  cbn [for_each template_errors flat_map]. unfold bind.
  assert (Hhead : treat_template W writer self page tf it
            = (tt, it, match template_page_title W (page_site W page) tf.1 with
                       | None => [EvError (MsgTemplateFail tf.1)]
                       | Some _ => []
                       end)).
  { unfold treat_template.
    destruct (template_page_title W _ _) as [template|] eqn:E; [|reflexivity].
    rewrite bool_decide_eq_false_2; [reflexivity|].
    intros Hin. apply (Hno tf); [left|]. exists template. split; assumption. }
  rewrite Hhead. rewrite IH by (intros tf' Hin; apply Hno; right; exact Hin).
  reflexivity.
Qed.

(** X6. A page none of whose template calls is a call of the template
    (under any of its names) is only loaded: apart from announcing the page,
    [treat] reports each template name that is not a well-formed title, in
    the order of the page, and goes on; no field is looked at and the Claim
    Writer is not called.  This holds in particular of a page without
    templates. *)
Theorem unmatched_templates_skipped (page : Page) (item : ItemPage) :
  ¬ (map_img (SA := gset string) (fields self)
       ⊆ item_claims W (item_get W item)) ->
  (∀ tf, tf ∈ raw_extracted_templates W page ->
         ¬ matches W self (page_site W page) tf) ->
  treat W writer self false page item
  = (Returned tt, item_get W item,
     EvCurrentPage page
     :: template_errors W (page_site W page) (raw_extracted_templates W page)).
Proof.
  intros Hsome Hno. unfold treat. rewrite treat_page_unfold.
  rewrite bool_decide_eq_false_2 by exact Hsome.
  rewrite (unmatched_loop page _ Hno). reflexivity.
Qed.

Lemma empty_mapping_short_circuit (page : Page) (item : ItemPage) :
  fields self = ∅ ->
  treat W writer self false page item
  = (Returned tt, item_get W item,
     [EvCurrentPage page;
      EvOutput (MsgAllClaims page (item_title W (item_get W item)))]).
Proof.
  intros Hempty. unfold treat. rewrite treat_page_unfold, Hempty.
  rewrite bool_decide_eq_true_2; [reflexivity|].
  rewrite map_img_empty_L. apply empty_subseteq.
Qed.

(** X7. Every call of the Claim Writer that [treat] makes on a page is for
    a property that is not claimed on the item at the time of the call,
    carries a claim whose target is set, and names the site of the page as
    the source. *)
Theorem writer_calls_sound (stop : bool) (page : Page) (item : ItemPage) :
  calls_nothing writer ->
  Forall (sound_call W page)
    (writer_calls (log_of (treat W writer self stop page item))).
Proof.
  intros Hquiet. unfold treat. destruct stop; [constructor|].
  pose proof (treat_page_rel
    (fun _ _ l => Forall (sound_call W page) (writer_calls l)) page) as H.
  cbv beta in H.
  assert (Hp : Forall (sound_call W page)
            (writer_calls (log_of (treat_page W writer self page item)))).
  { apply H; clear H; try (intros; constructor).
    - intros _ _ _ l1 l2 H1 H2. rewrite writer_calls_app.
      apply Forall_app; split; assumption.
    - intros fv it.
      destruct (treat_field_cases W writer self page fv it)
        as [E | [E | [[m E] | (prop & t & Hmap & Hnew & E)]]];
        rewrite E; try constructor.
      rewrite call_user_add_claim_unfold. unfold log_of; cbn [snd writer_calls].
      fold (log_of (writer self (mkClaim prop (Some t)) (page_site W page)
                      (item_get W it))).
      rewrite Hquiet. constructor; [|constructor].
      split; [exact Hnew|]. split; [eexists; reflexivity | reflexivity]. }
  unfold log_of in *. destruct (treat_page W writer self page item) as [[u it] l].
  exact Hp.
Qed.

(** X8. When a call of the Claim Writer leaves the property claimed on the
    item and loading the item loses no claim, [treat] calls the Claim Writer
    at most once for a property on one page: a second field mapped to the
    same property finds the claim of the first. *)
Theorem one_call_per_property (stop : bool) (page : Page) (item : ItemPage) :
  calls_nothing writer ->
  leaves_claimed W writer self ->
  get_keeps_claims W ->
  NoDup (called_ids W (log_of (treat W writer self stop page item))).
Proof.
  intros Hquiet Hleaves Hget. unfold treat. destruct stop; [constructor|].
  pose proof (treat_page_rel
    (fun it it' l =>
       item_claims W it ⊆ item_claims W it'
       ∧ (∀ id, id ∈ called_ids W l ->
                id ∈ item_claims W it' ∧ id ∉ item_claims W it)
       ∧ NoDup (called_ids W l)) page) as H.
  cbv beta in H.
  assert (Hnone : ∀ it it' : ItemPage, item_claims W it ⊆ item_claims W it' ->
            item_claims W it ⊆ item_claims W it'
            ∧ (∀ id, id ∈ called_ids W [] ->
                     id ∈ item_claims W it' ∧ id ∉ item_claims W it)
            ∧ NoDup (called_ids W [])).
  { intros it it' Hsub. split; [exact Hsub|]. split; [|constructor].
    intros id Hid. inversion Hid. }
  assert (Hp :
    item_claims W item ⊆ item_claims W (item_of (treat_page W writer self page item))
    ∧ (∀ id, id ∈ called_ids W (log_of (treat_page W writer self page item)) ->
             id ∈ item_claims W (item_of (treat_page W writer self page item))
             ∧ id ∉ item_claims W item)
    ∧ NoDup (called_ids W (log_of (treat_page W writer self page item)))).
  { apply H; clear H.
    - intros it. apply Hnone. reflexivity.
    - intros it it1 it2 l1 l2 (S1 & I1 & N1) (S2 & I2 & N2).
      split; [etrans; eassumption|].
      unfold called_ids in *. rewrite writer_calls_app, map_app.
      split.
      + intros id Hid. apply elem_of_app in Hid. destruct Hid as [Hid|Hid].
        * destruct (I1 id Hid) as [Hin Hout]. split; [apply S2, Hin | exact Hout].
        * destruct (I2 id Hid) as [Hin Hout]. split; [exact Hin|].
          intros Hc. apply Hout, S1, Hc.
      + apply NoDup_app. split; [exact N1|]. split; [|exact N2].
        intros id Hid1 Hid2.
        destruct (I1 id Hid1) as [Hin _]. destruct (I2 id Hid2) as [_ Hout].
        exact (Hout Hin).
    - intros it. apply Hnone, Hget.
    - intros it m. apply (Hnone it it). reflexivity.
    - intros it m. apply (Hnone it it). reflexivity.
    - intros it p. apply (Hnone it it). reflexivity.
    - intros fv it.
      destruct (treat_field_cases W writer self page fv it)
        as [E | [E | [[m E] | (prop & t & Hmap & Hnew & E)]]]; rewrite E.
      + apply (Hnone it it). reflexivity.
      + apply Hnone, Hget.
      + apply (Hnone it (item_get W it)), Hget.
      + rewrite call_user_add_claim_unfold.
        pose proof (Hleaves (mkClaim prop (Some t)) (page_site W page)
                      (item_get W it)) as [Hsub Hin].
        pose proof (Hquiet self (mkClaim prop (Some t)) (page_site W page)
                      (item_get W it)) as Hq.
        unfold called_ids, item_of, log_of in *; cbn [fst snd writer_calls] in *.
        rewrite Hq. cbn [map fst snd claim_prop].
        split; [etrans; [apply Hget | exact Hsub]|].
        split.
        * intros id Hid. apply list_elem_of_singleton in Hid. subst id.
          split; [exact Hin|]. intros Hc. apply Hnew, Hget, Hc.
        * apply NoDup_singleton. }
  destruct Hp as (_ & _ & Hnd).
  unfold log_of in *. destruct (treat_page W writer self page item) as [[u it] l].
  exact Hnd.
Qed.

End PageProperties.

(** ** Links and synonyms *)

Section RobotProperties.

Context {Page ItemPage : Type}.
Variable W : World Page ItemPage.

#[local] Abbreviation event := (event Page ItemPage).


Lemma replace_char_absent (a b : ascii) (s : string) :
  a ≠ b -> a ∉ chars (Py.replace_char a b s).
Proof.
  intros Hab. induction s as [|c s IH]; cbn; [apply not_elem_of_nil|].
  apply not_elem_of_cons. split; [|exact IH].
  destruct (Ascii.eqb c a) eqn:E; [exact Hab|].
  apply Ascii.eqb_neq in E. congruence.
Qed.

(** X10. [HarvestRobot.__init__] builds a bot exactly when the page of the
    template exists in the template namespace (the title taken with
    underscores replaced by spaces); otherwise it reports the missing
    template and exits.  The bot it builds keeps the field mapping and the
    generator it was given, has a template title without underscores, and
    recognises the template under the title of its page (of the page it
    redirects to, when it is a redirect) and under the title of every
    redirect to it, and under no other name. *)
Theorem init_outcomes (defaults : gmap string bool)
    (gen : option (list (Page * ItemPage))) (title : string)
    (flds : gmap string string) :
  let temp := Page_of_title W (Py.replace_char "_"%char " "%char title) 10 in
  (page_exists W temp = false ->
     HarvestRobot_init W defaults gen title flds
     = ([EvError (MsgTemplateMissing temp)], Raised SystemExit))
  ∧ (page_exists W temp = true ->
     ∃ bot, HarvestRobot_init W defaults gen title flds
            = ([EvOutput MsgFindingRedirects], Returned bot)
            ∧ fields bot = flds
            ∧ generator bot = gen
            ∧ ("_"%char ∉ chars (templateTitle bot))
            ∧ templateTitles bot = template_names W title
            ∧ page_title_no_ns W (template_page W title) ∈ templateTitles bot
            ∧ (∀ r, r ∈ getReferences_redirects W (template_page W title) ->
                    page_title_no_ns W r ∈ templateTitles bot)).
Proof.
  intros temp. unfold HarvestRobot_init, getTemplateSynonyms. fold temp.
  split; intros Hex; rewrite Hex; cbn [negb]; [reflexivity|].
  eexists. split; [reflexivity|]. cbn [fields generator templateTitle templateTitles].
  split; [reflexivity|]. split; [reflexivity|].
  split; [apply replace_char_absent; discriminate|].
  unfold template_names, template_page. fold temp.
  split; [reflexivity|]. split.
  - apply elem_of_app. right. apply list_elem_of_singleton. reflexivity.
  - intros r Hr. apply elem_of_app. left.
    apply list_elem_of_fmap. exists r. split; [reflexivity | exact Hr].
Qed.

End RobotProperties.

(** ** The command line *)

Section CommandLineProperties.

Context {Page ItemPage Gen : Type}.
Variable W : World Page ItemPage.
Variable C : @CommandLine Page ItemPage Gen.

#[local] Abbreviation event := (event Page ItemPage).

Lemma handled_args_app (l1 l2 : list event) :
  handled_args (l1 ++ l2) = handled_args l1 ++ handled_args l2.
Proof.
  induction l1 as [|e l1 IH]; [reflexivity|].
  destruct e; cbn; rewrite ?IH; reflexivity.
Qed.

(** The argument loop, from any state. *)
Lemma arg_loop_classifies (l : list string) : ∀ st : arg_state,
  ∃ extra,
    a_commandline_arguments (fold_left (main_arg C) l st)
    = a_commandline_arguments st ++ extra
    ∧ extra `sublist_of` l
    ∧ Forall (fun a => is_template_arg a = false) extra
    ∧ handled_args (a_log (fold_left (main_arg C) l st))
      = handled_args (a_log st)
        ++ List.filter (fun a => negb (is_template_arg a)) l.
Proof.
  induction l as [|a l IH]; intros st.
  - exists []. cbn. rewrite !app_nil_r. repeat split; constructor.
  - cbn [fold_left List.filter]. destruct (IH (main_arg C st a))
      as (extra & Hcla & Hsub & Hall & Hlog).
    unfold main_arg in *. fold (is_template_arg a) in *.
    destruct (is_template_arg a) eqn:Ht; cbn [negb].
    + exists extra. split; [|split; [|split]].
      * rewrite Hcla. destruct (String.length a =? 9)%nat; reflexivity.
      * apply sublist_cons, Hsub.
      * exact Hall.
      * rewrite Hlog. destruct (String.length a =? 9)%nat; cbn [a_log];
          rewrite ?handled_args_app, ?app_nil_r; reflexivity.
    + destruct (handleArg C (a_gen st) a) as [g handled].
      destruct handled; cbn [a_commandline_arguments a_log] in *.
      * exists extra. split; [exact Hcla|]. split; [apply sublist_cons, Hsub|].
        split; [exact Hall|].
        rewrite Hlog, handled_args_app, <- app_assoc. reflexivity.
      * exists (a :: extra). split; [rewrite Hcla, <- app_assoc; reflexivity|].
        split; [apply sublist_skip, Hsub|].
        split; [constructor; assumption|].
        rewrite Hlog, handled_args_app, <- app_assoc. reflexivity.
Qed.

(** X11. How [main] sorts its arguments: the field arguments are arguments
    of the command line, in their order; none of them begins with
    '-template'; and each argument that does not begin with '-template' is
    offered to the generator factory, once, in order, while an argument that
    does is never offered. *)
Theorem argument_classification (args : list string) :
  a_commandline_arguments (parse_args C args) `sublist_of` handle_args C args
  ∧ Forall (fun a => is_template_arg a = false)
      (a_commandline_arguments (parse_args C args))
  ∧ handled_args (a_log (parse_args C args))
    = List.filter (fun a => negb (is_template_arg a)) (handle_args C args).
Proof.
  unfold parse_args.
  destruct (arg_loop_classifies (handle_args C args)
              (mkArgs (GeneratorFactory C) "" [] []))
    as (extra & Hcla & Hsub & Hall & Hlog).
  cbn [a_commandline_arguments a_log app handled_args] in *.
  rewrite Hcla, Hlog. repeat split; assumption.
Qed.

(** X12. The last template argument decides: when the command line ends
    with '-template:T' the template title is T, whatever came before, and
    when it ends with a bare '-template' the title is what the operator
    types.  '-template:' with nothing after the colon leaves the title
    empty, and [main] then reports the missing template and returns. *)
Theorem last_template_argument (args pre : list string) (t : string) :
  (handle_args C args = pre ++ [String.append "-template:" t] ->
   a_template_title (parse_args C args) = t
   ∧ (t = "" -> (main W C args).2 = Returned None))
  ∧ (handle_args C args = pre ++ ["-template"] ->
     a_template_title (parse_args C args) = input_template C).
Proof.
  split; intros Hargs; unfold parse_args; rewrite Hargs, fold_left_app;
    cbn [fold_left]; unfold main_arg at 1; cbn.
  - split; [reflexivity|]. intros ->.
    unfold main, parse_args. rewrite Hargs, fold_left_app. cbn [fold_left].
    unfold main_arg at 1. cbn. reflexivity.
  - reflexivity.
Qed.

Lemma arg_loop_untitled (l : list string) : ∀ st : arg_state,
  (∀ a, a ∈ l -> is_template_arg a = false
                 ∧ Py.startswith a "-transcludes:" = false) ->
  a_template_title (fold_left (main_arg C) l st) = a_template_title st
  ∧ a_log (fold_left (main_arg C) l st) = a_log st ++ map EvHandleArg l.
Proof.
  induction l as [|a l IH]; intros st Hl.
  - cbn. rewrite app_nil_r. split; reflexivity.
  - cbn [fold_left map].
    destruct (Hl a) as [Ht Htr]; [left|].
    destruct (IH (main_arg C st a)) as [Htitle Hlog];
      [intros b Hb; apply Hl; right; exact Hb|].
    rewrite Htitle, Hlog. unfold main_arg. fold (is_template_arg a).
    rewrite Ht, Htr.
    destruct (handleArg C (a_gen st) a) as [g handled].
    destruct handled; cbn [a_template_title a_log];
      rewrite <- app_assoc; split; reflexivity.
Qed.

(** X13. Without an argument that begins with '-template' or with
    '-transcludes:' there is no template title: [main] offers every
    argument to the generator factory, reports that a template must be
    specified and returns.  It does so whatever the number of field
    arguments: it does not raise, asks for no generator and builds no
    bot. *)
Theorem no_template_argument (args : list string) :
  (∀ a, a ∈ handle_args C args ->
        is_template_arg a = false ∧ Py.startswith a "-transcludes:" = false) ->
  main W C args
  = (map EvHandleArg (handle_args C args) ++ [EvError MsgNoTemplateArg],
     Returned None).
Proof.
  intros Hno. unfold main, parse_args.
  destruct (arg_loop_untitled (handle_args C args)
              (mkArgs (GeneratorFactory C) "" [] []) Hno) as [Htitle Hlog].
  rewrite Htitle, Hlog. reflexivity.
Qed.

(** The generator the bot is given: the combined generator of the factory,
    or, when the options gave none, the combined generator once the factory
    has been offered '-transcludes:' with the template title. *)
Lemma main_unfold (args : list string) :
  let st := parse_args C args in
  let title := a_template_title st in
  let gen1 := getCombinedGenerator C (a_gen st) in
  let arg := String.append "-transcludes:" title in
  let generator :=
    match gen1 with
    | Some g => Some g
    | None => getCombinedGenerator C (handleArg C (a_gen st) arg).1
    end in
  let glog :=
    match gen1 with
    | Some _ => [EvGetCombinedGenerator]
    | None => [EvGetCombinedGenerator; EvHandleArg arg; EvGetCombinedGenerator]
    end in
  Py.truthy title = true ->
  length (a_commandline_arguments st) mod 2 = 0 ->
  main W C args
  = let '(ilog, bot) :=
      HarvestRobot_init W (option_defaults C) generator title
        (fields_of_args (a_commandline_arguments st)) in
    match bot with
    | Raised e => ((a_log st ++ glog) ++ ilog, Raised e)
    | Returned bot => ((a_log st ++ glog) ++ ilog ++ [EvRun], Returned (Some bot))
    end.
Proof.
  intros st title gen1 arg generator glog Htitle Heven.
  unfold main. fold st. fold title. rewrite Htitle. cbn [negb].
  rewrite Heven. cbn [Nat.eqb negb].
  subst generator glog. fold gen1. fold arg.
  destruct gen1 as [g|]; reflexivity.
Qed.

(** X14. With a template title and an even number of field arguments,
    [main] runs a bot exactly when the page of the template exists.  The
    generator is asked for first: a missing template is found only after
    that, and then [main] exits on the report of the missing template
    without running anything.  Otherwise the bot is run last of all, with
    the generator of the options or, when there is none, the generator of
    the pages that transclude the template, and it recognises the template
    under the names of its page. *)
Theorem main_runs_or_exits (args : list string) :
  let st := parse_args C args in
  let title := a_template_title st in
  let temp := Page_of_title W (Py.replace_char "_"%char " "%char title) 10 in
  Py.truthy title = true ->
  length (a_commandline_arguments st) mod 2 = 0 ->
  (page_exists W temp = false ->
     (main W C args).2 = Raised SystemExit
     ∧ last (main W C args).1 = Some (EvError (MsgTemplateMissing temp))
     ∧ EvGetCombinedGenerator ∈ (main W C args).1
     ∧ EvRun ∉ (main W C args).1)
  ∧ (page_exists W temp = true ->
     ∃ bot, (main W C args).2 = Returned (Some bot)
            ∧ last (main W C args).1 = Some EvRun
            ∧ templateTitles bot = template_names W title
            ∧ generator bot
              = match getCombinedGenerator C (a_gen st) with
                | Some g => Some g
                | None =>
                    getCombinedGenerator C
                      (handleArg C (a_gen st)
                         (String.append "-transcludes:" title)).1
                end).
Proof.
  intros st title temp Htitle Heven.
  rewrite (main_unfold args Htitle Heven). fold st. fold title.
  unfold HarvestRobot_init, getTemplateSynonyms. fold temp.
  split; intros Hex; rewrite Hex; cbn [negb fst snd].
  - split; [reflexivity|]. split; [apply last_snoc|]. split.
    + apply elem_of_app. left. apply elem_of_app. right.
      destruct (getCombinedGenerator C (a_gen st)); left.
    + intros Hin. apply elem_of_app in Hin. destruct Hin as [Hin|Hin].
      * apply elem_of_app in Hin. destruct Hin as [Hin|Hin].
        -- pose proof (parse_args_log C args) as Hlog. fold st in Hlog.
           apply list_elem_of_In in Hin.
           assert (Hf : In EvRun (List.filter past_configuration (a_log st)))
             by (apply filter_In; split; [exact Hin | reflexivity]).
           rewrite Hlog in Hf. exact Hf.
        -- destruct (getCombinedGenerator C (a_gen st));
             repeat (apply elem_of_cons in Hin; destruct Hin as [Hin|Hin];
                     [discriminate|]);
             inversion Hin.
      * apply list_elem_of_singleton in Hin. discriminate.
  - eexists. split; [reflexivity|]. split.
    + rewrite !app_assoc. apply last_snoc.
    + split; reflexivity.
Qed.

Lemma main_returns_bot (args : list string) (log : list event)
    (bot : @HarvestRobot Page ItemPage) :
  main W C args = (log, Returned (Some bot)) ->
  fields bot = fields_of_args (a_commandline_arguments (parse_args C args)).
Proof.
  unfold main.
  destruct (negb (Py.truthy _)); [discriminate|].
  destruct (negb _); [discriminate|].
  destruct (getCombinedGenerator C _) as [g|];
    unfold HarvestRobot_init;
    destruct (getTemplateSynonyms W _) as [l [titles|e]];
    intros H; inversion H; reflexivity.
Qed.

(** X15. Without field arguments the bot has nothing to harvest: the bot
    that [main] runs has an empty field mapping, and [treat] takes every
    page to be complete, reporting that the item has claims for all
    properties and looking at no template. *)
Theorem no_field_arguments (args : list string) (log : list event)
    (bot : @HarvestRobot Page ItemPage)
    (writer : @HarvestRobot Page ItemPage -> Claim Page ItemPage -> Site ->
              @M Page ItemPage unit)
    (page : Page) (item : ItemPage) :
  a_commandline_arguments (parse_args C args) = [] ->
  main W C args = (log, Returned (Some bot)) ->
  fields bot = ∅
  ∧ treat W writer bot false page item
    = (Returned tt, item_get W item,
       [EvCurrentPage page;
        EvOutput (MsgAllClaims page (item_title W (item_get W item)))]).
Proof.
  intros Hnone Hmain.
  assert (Hempty : fields bot = ∅).
  { rewrite (main_returns_bot args log bot Hmain), Hnone. reflexivity. }
  split; [exact Hempty|]. apply empty_mapping_short_circuit. exact Hempty.
Qed.

Lemma consecutive_pairs_length (k : nat) : ∀ args : list string,
  length args = 2 * k -> length (consecutive_pairs args) = k.
Proof.
  induction k as [|k IH]; intros args Hlen.
  - destruct args; [reflexivity | discriminate].
  - destruct args as [|a [|b rest]]; try (cbn in Hlen; lia).
    cbn [consecutive_pairs length]. f_equal. apply IH. cbn in Hlen. lia.
Qed.

(** X16. When the field names of an even list of field arguments are
    pairwise different, no argument is lost: the field mapping is the map of
    the consecutive pairs, every pair is an entry, and it has as many
    entries as there are pairs. *)
Theorem distinct_names_all_entries (args : list string) :
  length args mod 2 = 0 ->
  NoDup (consecutive_pairs args).*1 ->
  fields_of_args args = list_to_map (consecutive_pairs args)
  ∧ size (fields_of_args args) = length args / 2
  ∧ ∀ i name pid, args !! (2 * i) = Some name ->
                  args !! (2 * i + 1) = Some pid ->
                  fields_of_args args !! name = Some pid.
Proof.
  intros Heven Hnd.
  assert (Hmap : fields_of_args args = list_to_map (consecutive_pairs args)).
  { apply map_eq. intros name. apply option_eq. intros pid.
    rewrite fields_of_args_lookup by exact Heven.
    rewrite <- elem_of_list_to_map by exact Hnd.
    rewrite list_elem_of_lookup. split.
    - intros (i & H1 & H2 & _). exists i.
      apply consecutive_pairs_lookup. split; assumption.
    - intros (i & Hi). exists i.
      pose proof Hi as Hi'. apply consecutive_pairs_lookup in Hi'.
      destruct Hi' as [H1 H2]. repeat split; try assumption.
      intros j Hj. pose proof (lookup_lt_Some _ _ _ Hj) as Hlt.
      destruct (args !! (2 * j + 1)) as [w|] eqn:Hw.
      + assert (Hpj : consecutive_pairs args !! j = Some (name, w))
          by (apply consecutive_pairs_lookup; split; assumption).
        assert (j = i); [|lia].
        eapply (NoDup_lookup _ _ _ name Hnd);
          rewrite list_lookup_fmap; [rewrite Hpj | rewrite Hi]; reflexivity.
      + apply lookup_ge_None in Hw.
        pose proof (Nat.div_mod_eq (length args) 2). lia. }
  split; [exact Hmap|]. split.
  - rewrite Hmap, map_size_list_to_map by exact Hnd.
    apply consecutive_pairs_length.
    pose proof (Nat.div_mod_eq (length args) 2). lia.
  - intros i name pid H1 H2. rewrite Hmap.
    apply elem_of_list_to_map; [exact Hnd|].
    apply list_elem_of_lookup. exists i.
    apply consecutive_pairs_lookup. split; assumption.
Qed.

End CommandLineProperties.

(** ** After the interrupt *)

Section StopProperties.

Context {Page ItemPage : Type}.
Variable W : World Page ItemPage.
Variable writer :
  @HarvestRobot Page ItemPage -> Claim Page ItemPage -> Site -> @M Page ItemPage unit.
Variable self : @HarvestRobot Page ItemPage.

#[local] Abbreviation event := (event Page ItemPage).

Lemma exec_stopped (ts : list tick) (c : config) :
  running (ctl c) = false -> exec W writer self ts c = c.
Proof.
  intros Hc. induction ts as [|t ts IH]; [reflexivity|].
  unfold exec in *. cbn [fold_left]. unfold step at 2. rewrite Hc. exact IH.
Qed.

Lemma exec_flagged_at_page (ts : list tick) (pages : list (Page * ItemPage))
    (log : list event) :
  willstop (exec W writer self ts (mkConfig true (AtPage pages) log)) = true
  ∧ done_log (exec W writer self ts (mkConfig true (AtPage pages) log)) = log.
Proof.
  destruct ts as [|t ts]; [split; reflexivity|].
  change (exec W writer self (t :: ts) ?c)
    with (exec W writer self ts (step W writer self t c)).
  destruct t; unfold step, _signal_handler;
    cbn [ctl running negb willstop done_log].
  - destruct pages as [|[page item] pages];
      rewrite exec_stopped by reflexivity; split; reflexivity.
  - rewrite exec_stopped by reflexivity. cbn. rewrite app_nil_r.
    split; reflexivity.
Qed.

Lemma exec_flagged_in_treat (ts : list tick) :
  ∀ (pending : list event) (pages : list (Page * ItemPage)) (log : list event),
  willstop (exec W writer self ts (mkConfig true (InTreat pending pages) log))
  = true
  ∧ ∃ k, done_log (exec W writer self ts
                     (mkConfig true (InTreat pending pages) log))
         = log ++ take k pending.
Proof.
  induction ts as [|t ts IH]; intros pending pages log.
  - split; [reflexivity|]. exists 0. cbn. rewrite app_nil_r. reflexivity.
  - change (exec W writer self (t :: ts) ?c)
      with (exec W writer self ts (step W writer self t c)).
    destruct t; unfold step, _signal_handler;
      cbn [ctl running negb willstop done_log].
    + destruct pending as [|e pending].
      * destruct (exec_flagged_at_page ts pages log) as [Hw Hl].
        split; [exact Hw|]. exists 0. rewrite Hl. cbn. rewrite app_nil_r.
        reflexivity.
      * destruct (IH pending pages (log ++ [e])) as [Hw [k Hk]].
        split; [exact Hw|]. exists (S k). rewrite Hk, <- app_assoc. reflexivity.
    + rewrite exec_stopped by reflexivity. cbn. split; [reflexivity|].
      exists 0. rewrite take_0. reflexivity.
Qed.

(** X17. Once the stop flag is set it stays set, and whatever comes next,
    steps of the main thread and further interrupts in any order, no page is
    started any more: between pages nothing further is done, and in the
    middle of a page what is done is some first part of what that page has
    still to do. *)
Theorem nothing_started_after_interrupt (ts : list tick)
    (pending : list event) (pages : list (Page * ItemPage)) (log : list event) :
  willstop (exec W writer self ts (mkConfig true (AtPage pages) log)) = true
  ∧ done_log (exec W writer self ts (mkConfig true (AtPage pages) log)) = log
  ∧ willstop (exec W writer self ts (mkConfig true (InTreat pending pages) log))
    = true
  ∧ ∃ k, done_log (exec W writer self ts
                     (mkConfig true (InTreat pending pages) log))
         = log ++ take k pending.
Proof.
  destruct (exec_flagged_at_page ts pages log) as [H1 H2].
  destruct (exec_flagged_in_treat ts pending pages log) as [H3 H4].
  repeat split; assumption.
Qed.

End StopProperties.

(** ** The Claim Writer of the base class *)

Section BaseWriterProperties.

Context {Page ItemPage : Type}.
Variable W : World Page ItemPage.

Lemma base_writer_calls_nothing :
  calls_nothing (WikidataBot_user_add_claim W).
Proof.
  intros self claim source it. unfold WikidataBot_user_add_claim.
  destruct (getOption self "always"); [reflexivity|].
  unfold bind, emit, update_item, ret.
  destruct (user_confirm W claim); reflexivity.
Qed.

End BaseWriterProperties.

(** * The properties at work in the small world *)

(** A decidable statement about concrete data is settled by running its
    decision procedure. *)
Ltac by_computation :=
  match goal with
  | |- ?P => refine (bool_decide_eq_true_1 P _); vm_compute; reflexivity
  end.

Section DemoRuns.

Import Demo.

Lemma whole_entity_short_circuit_witness :
  treat world writer robot false article complete =
    (Returned tt, complete,
     [EvCurrentPage article; EvOutput (MsgAllClaims article "Q1")])
  ∧ writer_activity (log_of (treat world writer robot false article complete)) = []
  ∧ treat bare_world writer robot false article complete
    = treat world writer robot false article complete.
Proof.
  pose proof (whole_entity_short_circuit world writer robot false article complete) as H.
  assert (Hsub : map_img (SA := gset string) (fields robot)
                   ⊆ item_claims world (item_get world complete)).
  { by_computation. }
  destruct (H Hsub) as (H1 & H2 & H3).
  split; [exact H1 | split; [exact H2 |]].
  exact (H3 bare_world eq_refl eq_refl eq_refl).
Defined.

Lemma duplicate_guard_witness :
  treat_field world writer robot article ("bron", "[http://example.org/x label]")
    (mkItem "Q1" ["P856"])
  = (tt, mkItem "Q1" ["P856"], [EvOutput (MsgAlreadyExists "P856")])
  ∧ treat_field bare_world writer robot article
      ("bron", "[http://example.org/x label]") (mkItem "Q1" ["P856"])
    = treat_field world writer robot article
        ("bron", "[http://example.org/x label]") (mkItem "Q1" ["P856"]).
Proof.
  assert (Hmap : fields robot !! Py.strip "bron" = Some "P856")
    by (vm_compute; reflexivity).
  assert (Hdup : Claim_getID world "P856"
                   ∈ item_claims world (item_get world (mkItem "Q1" ["P856"])))
    by by_computation.
  destruct (duplicate_guard world writer robot article "bron"
              "[http://example.org/x label]" (mkItem "Q1" ["P856"])
              "P856" Hmap Hdup) as (H1 & _ & H3).
  split; [exact H1 | exact (H3 bare_world eq_refl eq_refl eq_refl)].
Defined.

Lemma entity_reference_link_text_witness :
  treat_field world writer robot article ("orde", " [[Actinopterygii]] ") fresh
  = claim_entity_by_title world writer robot article "P70" "Actinopterygii" fresh
  ∧ treat_field world writer robot article ("familie", "xyz-not-a-page") fresh
    = claim_entity_by_title world writer robot article "P71" "xyz-not-a-page" fresh.
Proof.
  split.
  - refine (proj1 (entity_reference_link_text world writer robot article "orde"
                     " [[Actinopterygii]] " fresh "P70" _ _ _ _ _)
              "Actinopterygii" _);
      first [by_computation | vm_compute; reflexivity].
  - refine (proj2 (entity_reference_link_text world writer robot article "familie"
                     "xyz-not-a-page" fresh "P71" _ _ _ _ _) _);
      first [by_computation | vm_compute; reflexivity].
Defined.

Lemma self_link_guard_witness :
  treat_field world writer robot article ("geslacht", "see [[Sisoridae]] above") fresh
  = (tt, fresh, [EvOutput (MsgSelfLink article)]).
Proof.
  refine (proj2 (proj2 (self_link_guard world writer robot article "geslacht"
                          "see [[Sisoridae]] above" fresh fresh "P74"
                          _ _ _ _ _ _ _)) _ _);
    first [by_computation | vm_compute; reflexivity].
Defined.

Lemma url_parsing_witness :
  treat_field world writer robot article
    ("website", "site: [http://example.org/x label]") fresh
  = call_user_add_claim writer robot
      (mkClaim "P856" (Some (TString "http://example.org/x"))) nlwiki fresh
  ∧ treat_field world writer robot article ("bron", "example.org") fresh
    = (tt, fresh, []).
Proof.
  split.
  - refine (proj1 (url_parsing world writer robot article "website"
                     "site: [http://example.org/x label]" fresh "P856"
                     _ _ _ _ _) "http://example.org/x" _);
      first [by_computation | vm_compute; reflexivity].
  - refine (proj2 (url_parsing world writer robot article "bron" "example.org"
                     fresh "P856" _ _ _ _ _) _);
      first [by_computation | vm_compute; reflexivity].
Defined.


Lemma unsupported_kind_witness :
  treat_field world writer robot article ("positie", "52N 4E") fresh
  = (tt, fresh, [EvOutput (MsgUnsupported "globe-coordinate")]).
Proof.
  refine (proj2 (proj2 (unsupported_kind world writer robot article "positie"
                          "52N 4E" fresh "P625" _ _)) _ _ _);
    first [by_computation | vm_compute; reflexivity].
Defined.

(** C8, as stated, fails twice.  With an odd number of field arguments
    and no template title, [main] reports the missing title and returns; it
    does not raise.  And of two pairs with the same field name only the
    later one is an entry of the field mapping. *)
Lemma odd_count_not_always_raised :
  length (a_commandline_arguments (parse_args cmdline ["orde"])) mod 2 = 1
  ∧ main world cmdline ["orde"] =
      ([EvHandleArg "orde"; EvError MsgNoTemplateArg], Returned None)
  ∧ (main world cmdline ["orde"]).2 ≠ Raised ValueError
  ∧ length ["orde"; "P70"; "orde"; "P71"] mod 2 = 0
  ∧ fields_of_args ["orde"; "P70"; "orde"; "P71"] !! "orde" = Some "P71"
  ∧ fields_of_args ["orde"; "P70"; "orde"; "P71"] !! "orde" ≠ Some "P70".
Proof.
  repeat split; try (vm_compute; reflexivity); vm_compute; discriminate.
Qed.

Lemma field_count_check_witness :
  main world cmdline ["-template:Taxobox_straalvinnige"; "orde"; "P70"; "familie"]
  = ([EvHandleArg "orde"; EvHandleArg "P70"; EvHandleArg "familie"],
     Raised ValueError)
  ∧ (∀ name pid : string,
       fields_of_args ["orde"; "P70"; "orde"; "P71"] !! name = Some pid
       ↔ ∃ i, ["orde"; "P70"; "orde"; "P71"] !! (2 * i) = Some name
              ∧ ["orde"; "P70"; "orde"; "P71"] !! (2 * i + 1) = Some pid
              ∧ ∀ j, ["orde"; "P70"; "orde"; "P71"] !! (2 * j) = Some name -> j <= i)
  ∧ (∃ log bot,
       main world cmdline
         ["-template:Taxobox_straalvinnige"; "orde"; "P70"; "orde"; "P71"]
       = (log, Returned (Some bot))
       ∧ fields bot = fields_of_args ["orde"; "P70"; "orde"; "P71"]).
Proof.
  split; [|split].
  - refine (proj1 (proj1 (field_count_check world cmdline
              ["-template:Taxobox_straalvinnige"; "orde"; "P70"; "familie"] _) _));
      vm_compute; reflexivity.
  - refine (proj1 (proj2 (field_count_check world cmdline
              ["-template:Taxobox_straalvinnige"; "orde"; "P70"; "orde"; "P71"] _) _));
      vm_compute; reflexivity.
  - eexists. eexists. split; [vm_compute; reflexivity|].
    refine (proj2 (proj2 (field_count_check world cmdline
              ["-template:Taxobox_straalvinnige"; "orde"; "P70"; "orde"; "P71"] _) _)
              _ _ _);
      vm_compute; reflexivity.
Defined.

(** The bot that [HarvestRobot.__init__] builds when the option default
    is False. *)
Lemma always_option_forced_witness :
  getOption
    {| availableOptions := <["always" := true]> {["always" := false]};
       options := ∅;
       generator := Some [(article, fresh)];
       templateTitle := "Taxobox straalvinnige";
       fields := harvest_fields;
       templateTitles := ["Taxobox straalvinnige"] |} "always" = true
  ∧ List.filter is_prompt
      (log_of (treat world writer
         {| availableOptions := <["always" := true]> {["always" := false]};
            options := ∅;
            generator := Some [(article, fresh)];
            templateTitle := "Taxobox straalvinnige";
            fields := harvest_fields;
            templateTitles := ["Taxobox straalvinnige"] |}
         false article fresh)) = [].
Proof.
  pose proof (always_option_forced world {["always" := false]}
                (Some [(article, fresh)]) "Taxobox_straalvinnige"
                harvest_fields [EvOutput MsgFindingRedirects] _ eq_refl)
    as (_ & H1 & H2).
  split; [exact H1 | exact (proj2 (H2 false article fresh))].
Defined.

(** Without the option the operator is asked: the absence of prompts above
    is a fact about the bot, not about the log. *)
Example prompt_without_always :
  List.filter is_prompt
    (log_of (treat world writer
       {| availableOptions := {["always" := false]};
          options := ∅;
          generator := Some [(article, fresh)];
          templateTitle := "Taxobox straalvinnige";
          fields := harvest_fields;
          templateTitles := ["Taxobox straalvinnige"] |}
       false article fresh))
  = [EvPrompt (mkClaim "P70" (Some (TItem (mkItem "Q2" []))));
     EvPrompt (mkClaim "P225" (Some (TString "Sisoridae")));
     EvPrompt (mkClaim "P856" (Some (TString "http://example.org/x")));
     EvPrompt (mkClaim "P18"
       (Some (TFile (mkPage (mkSite "commons" "commons") 6 "Fish.jpg"))))].
Proof. vm_compute. reflexivity. Qed.

(** The scenario of two entity-reference fields: the claim for 'orde' is
    written, 'familie' names a page that does not exist. *)
Example scenario_two_fields :
  treat world writer robot2 false article fresh
  = (Returned tt, mkItem "Q1" ["P70"],
     [EvCurrentPage article;
      EvUserAddClaim fresh (mkClaim "P70" (Some (TItem (mkItem "Q2" [])))) nlwiki;
      EvCommit (mkClaim "P70" (Some (TItem (mkItem "Q2" []))));
      EvOutput (MsgNotExist (mkPage nlwiki 0 "xyz-not-a-page"))]).
Proof. vm_compute. reflexivity. Qed.

(** The same page once the item has its claim for P70. *)
Example scenario_second_run :
  treat world writer robot2 false article (mkItem "Q1" ["P70"])
  = (Returned tt, mkItem "Q1" ["P70"],
     [EvCurrentPage article;
      EvOutput (MsgAlreadyExists "P70");
      EvOutput (MsgNotExist (mkPage nlwiki 0 "xyz-not-a-page"))]).
Proof. vm_compute. reflexivity. Qed.

(** The markup readers of the small world on the examples of the
    specification. *)
Example link_markup_examples :
  link_markup_target "[[Target]]" = Some "Target"
  ∧ link_markup_target "before [[Target]] and [[Other]] after" = Some "Target"
  ∧ link_markup_target "Target" = None
  ∧ external_link_url "[http://example.org/x label]" = Some "http://example.org/x"
  ∧ external_link_url "example.org" = None.
Proof. repeat split; vm_compute; reflexivity. Qed.

(** One page of the generator, interrupted once after its first effect:
    the page is finished, the flag is set, and the run stops at the next
    page. *)
Example interrupted_once :
  let page_log := log_of (treat world writer robot false article fresh) in
  exec world writer robot
    ([Step; Step; Sigint] ++ repeat Step (length page_log) ++ [Step])
    (mkConfig false (AtPage [(article, fresh); (article, fresh)]) [])
  = mkConfig true Aborted
      (take 1 page_log ++ [EvOutput MsgCtrlC] ++ drop 1 page_log).
Proof. vm_compute. reflexivity. Qed.

End DemoRuns.

(** * The further properties at work in the small world *)

Section MoreRuns.

Import Demo MoreDemo.

Lemma blank_field_dropped_witness :
  treat_field world writer robot article ("orde", "   ") fresh = (tt, fresh, [])
  ∧ treat_field world writer robot article ("", "[[Actinopterygii]]") fresh
    = (tt, fresh, []).
Proof.
  split.
  - refine (blank_field_dropped world writer robot article "orde" "   " fresh _).
    right. vm_compute. reflexivity.
  - refine (blank_field_dropped world writer robot article ""
              "[[Actinopterygii]]" fresh _).
    left. vm_compute. reflexivity.
Defined.

Lemma string_value_verbatim_witness :
  treat_field world writer robot article ("naam", "  Sisoridae ") fresh
  = call_user_add_claim writer robot
      (mkClaim "P225" (Some (TString "Sisoridae"))) nlwiki fresh.
Proof.
  refine (string_value_verbatim world writer robot article "naam"
            "  Sisoridae " fresh "P225" _ _ _ _ _);
    first [by_computation | left; vm_compute; reflexivity | vm_compute; reflexivity].
Defined.


Lemma unmatched_templates_skipped_witness :
  treat broken_world writer navbox_robot false article fresh
  = (Returned tt, fresh,
     [EvCurrentPage article; EvError (MsgTemplateFail "{bad}")]).
Proof.
  refine (unmatched_templates_skipped broken_world writer navbox_robot
            article fresh _ _).
  - by_computation.
  - intros tf Hin (template & Htitle & Hname).
    apply list_elem_of_singleton in Hname. subst template.
    cbn in Hin.
    repeat (apply elem_of_cons in Hin; destruct Hin as [-> | Hin];
            [vm_compute in Htitle; discriminate|]).
    inversion Hin.
Defined.

Lemma writer_calls_sound_witness :
  Forall (sound_call world article)
    (writer_calls (log_of (treat world writer robot false article fresh))).
Proof.
  exact (writer_calls_sound world writer robot false article fresh
           (base_writer_calls_nothing world)).
Defined.

Lemma one_call_per_property_witness :
  NoDup (called_ids world (log_of (treat world writer robot false article fresh)))
  ∧ called_ids world (log_of (treat world writer robot false article fresh))
    = ["P70"; "P225"; "P856"; "P18"].
Proof.
  split; [|vm_compute; reflexivity].
  refine (one_call_per_property world writer robot false article fresh
            (base_writer_calls_nothing world) _ _).
  - intros claim source it. unfold writer, WikidataBot_user_add_claim, item_of.
    change (getOption robot "always") with true.
    unfold bind, emit, update_item; cbn [fst snd].
    unfold world at 1 2 3 4 5 6; cbn [item_claims save_claim Claim_getID i_claims].
    rewrite list_to_set_app_L. split; set_solver.
  - intros it. reflexivity.
Defined.

Lemma init_outcomes_witness :
  HarvestRobot_init world {["always" := false]} None "No_such_template"
    harvest_fields
  = ([EvError (MsgTemplateMissing (mkPage nlwiki 10 "No such template"))],
     Raised SystemExit)
  ∧ ∃ bot, HarvestRobot_init world {["always" := false]} None
             "Taxobox_straalvinnige" harvest_fields
           = ([EvOutput MsgFindingRedirects], Returned bot)
           ∧ templateTitles bot = ["Taxobox straalvinnige"].
Proof.
  split.
  - refine (proj1 (init_outcomes world {["always" := false]} None
                     "No_such_template" harvest_fields) _).
    vm_compute. reflexivity.
  - destruct (proj2 (init_outcomes world {["always" := false]} None
                       "Taxobox_straalvinnige" harvest_fields) eq_refl)
      as (bot & Hinit & _ & _ & _ & Hnames & _).
    exists bot. split; [exact Hinit | exact Hnames].
Defined.

Lemma last_template_argument_witness :
  a_template_title
    (parse_args cmdline ["-template:Infobox"; "orde"; "-template:Taxobox"])
  = "Taxobox"
  ∧ (main world cmdline ["orde"; "P70"; "-template:"]).2 = Returned None
  ∧ a_template_title (parse_args cmdline ["orde"; "-template"])
    = "Taxobox straalvinnige".
Proof.
  split; [|split].
  - exact (proj1 (proj1 (last_template_argument world cmdline
             ["-template:Infobox"; "orde"; "-template:Taxobox"]
             ["-template:Infobox"; "orde"] "Taxobox") eq_refl)).
  - exact (proj2 (proj1 (last_template_argument world cmdline
             ["orde"; "P70"; "-template:"] ["orde"; "P70"] "") eq_refl)
             eq_refl).
  - exact (proj2 (last_template_argument world cmdline
             ["orde"; "-template"] ["orde"] "") eq_refl).
Defined.

Lemma no_template_argument_witness :
  main world cmdline ["orde"; "P70"; "familie"]
  = ([EvHandleArg "orde"; EvHandleArg "P70"; EvHandleArg "familie";
      EvError MsgNoTemplateArg], Returned None).
Proof.
  refine (no_template_argument world cmdline ["orde"; "P70"; "familie"] _).
  intros a Ha. cbn in Ha.
  repeat (apply elem_of_cons in Ha; destruct Ha as [-> | Ha];
          [split; vm_compute; reflexivity|]).
  inversion Ha.
Defined.

Lemma main_runs_or_exits_witness :
  (main world cmdline ["-template:No_such_template"; "orde"; "P70"]).2
  = Raised SystemExit
  ∧ ∃ bot, (main world cmdline
              ["-template:Taxobox_straalvinnige"; "orde"; "P70"]).2
           = Returned (Some bot)
           ∧ templateTitles bot = ["Taxobox straalvinnige"].
Proof.
  split.
  - refine (proj1 (proj1 (main_runs_or_exits world cmdline
              ["-template:No_such_template"; "orde"; "P70"] _ _) _));
      vm_compute; reflexivity.
  - destruct (proj2 (main_runs_or_exits world cmdline
                ["-template:Taxobox_straalvinnige"; "orde"; "P70"]
                eq_refl eq_refl) eq_refl)
      as (bot & Hmain & _ & Hnames & _).
    exists bot. split; [exact Hmain | exact Hnames].
Defined.

Lemma no_field_arguments_witness :
  ∃ log bot,
    main world cmdline ["-template:Taxobox_straalvinnige"]
    = (log, Returned (Some bot))
    ∧ fields bot = ∅
    ∧ treat world writer bot false article fresh
      = (Returned tt, fresh,
         [EvCurrentPage article; EvOutput (MsgAllClaims article "Q1")]).
Proof.
  eexists. eexists. split; [vm_compute; reflexivity|].
  refine (no_field_arguments world cmdline
            ["-template:Taxobox_straalvinnige"] _ _ writer article fresh _ _);
    vm_compute; reflexivity.
Defined.

Lemma distinct_names_all_entries_witness :
  fields_of_args ["orde"; "P70"; "familie"; "P71"]
  = list_to_map [("orde", "P70"); ("familie", "P71")]
  ∧ size (fields_of_args ["orde"; "P70"; "familie"; "P71"]) = 2.
Proof.
  assert (Hnd : NoDup (consecutive_pairs ["orde"; "P70"; "familie"; "P71"]).*1)
    by by_computation.
  destruct (distinct_names_all_entries ["orde"; "P70"; "familie"; "P71"]
              eq_refl Hnd) as (H1 & H2 & _).
  split; [exact H1 | exact H2].
Defined.

End MoreRuns.
